(** * IP-camera detection pipeline (basic_pipelines/ipcamera_detection_pipeline.py)

    A shallow embedding of [GStreamerIPCameraApp]: the two model
    registries, the construction of the GStreamer pipeline, the bus
    handlers, [run] and [cleanup].  The media framework (GStreamer, GLib,
    the file system) is a collaborator: what it answers is a parameter of
    the model ([framework]), what the class does with the answers is
    translated from the source. *)

From Stdlib Require Import ZArith Ascii String.
From stdpp Require Import base gmap strings list.

Local Open Scope string_scope.

(** ** Paths: the two [os.path] functions the constructor uses (posixpath) *)

Module PosixPath.

Definition is_sep (c : ascii) : bool := Ascii.eqb c "/"%char.

Definition is_empty (s : string) : bool :=
  match s with EmptyString => true | String _ _ => false end.

(** [p[:p.rfind('/') + 1]]: the part of [p] up to and including its last
    separator, empty when [p] has none. *)
Fixpoint head_part (p : string) : string :=
  match p with
  | EmptyString => EmptyString
  | String c r =>
      let h := head_part r in
      if is_sep c || negb (is_empty h) then String c h else EmptyString
  end.

(** [s.rstrip('/')] *)
Fixpoint rstrip_sep (s : string) : string :=
  match s with
  | EmptyString => EmptyString
  | String c r =>
      let t := rstrip_sep r in
      if is_sep c && is_empty t then EmptyString else String c t
  end.

(** [s == '/' * len(s)] *)
Fixpoint all_sep (s : string) : bool :=
  match s with
  | EmptyString => true
  | String c r => is_sep c && all_sep r
  end.

(** [os.path.dirname] *)
Definition dirname (p : string) : string :=
  let head := head_part p in
  if negb (is_empty head) && negb (all_sep head) then rstrip_sep head else head.

Definition starts_with_sep (s : string) : bool :=
  match s with String c _ => is_sep c | EmptyString => false end.

Fixpoint ends_with_sep (s : string) : bool :=
  match s with
  | EmptyString => false
  | String c EmptyString => is_sep c
  | String _ r => ends_with_sep r
  end.

(** [os.path.join(a, b)] *)
Definition join (a b : string) : string :=
  if starts_with_sep b then b
  else if is_empty a || ends_with_sep a then a +:+ b
  else a +:+ "/" +:+ b.

End PosixPath.

(** ** The model registries *)

(** A Python dict keeps its keys in insertion order, and the error message
    of the constructor prints them in that order: an association list. *)
Definition registry := list (string * string).

Definition HAILO8_MODELS : registry :=
  [ ("yolov5m", "resources/yolov5m_wo_spp.hef");
    ("yolov8s", "resources/yolov8s.hef");
    ("yolov8m", "resources/yolov8m.hef");
    ("yolov6n", "resources/yolov6n.hef") ].

Definition HAILO8L_MODELS : registry :=
  [ ("yolov8s", "resources/yolov8s_h8l.hef");
    ("yolov6n", "resources/yolov6n.hef");
    ("yolox_s", "resources/yolox_s_leaky_h8l_mz.hef") ].

(** [models.keys()] *)
Definition keys (d : registry) : list string := map fst d.

(** [k in d] *)
Definition py_in (k : string) (d : registry) : bool :=
  existsb (String.eqb k) (keys d).

(** [d[k]], [None] standing for KeyError *)
Fixpoint py_getitem (k : string) (d : registry) : option string :=
  match d with
  | [] => None
  | (k', v) :: d' => if String.eqb k k' then Some v else py_getitem k d'
  end.

(** [sep.join(l)] *)
Definition py_join (sep : string) (l : list string) : string :=
  String.concat sep l.

(** ** Exceptions and outcomes *)

Inductive exn_class :=
| ValueError | RuntimeError | AttributeError | TypeError | KeyError
| GLibError | KeyboardInterrupt.

(** [except Exception] catches everything here but KeyboardInterrupt,
    which derives from BaseException only. *)
Definition is_Exception (c : exn_class) : bool :=
  match c with KeyboardInterrupt => false | _ => true end.

Record exn := Exn { exn_cls : exn_class; exn_msg : string }.

(** A call returns, raises, or never comes back (a main loop nobody
    quits). *)
Inductive outcome (A : Type) :=
| Ret (a : A)
| Raise (e : exn)
| Hang.
Arguments Ret {A} a.
Arguments Raise {A} e.
Arguments Hang {A}.

(** ** The framework objects *)

Inductive GstState := NULL | READY | PAUSED | PLAYING.

Inductive StateChangeReturn := FAILURE | SUCCESS | ASYNC | NO_PREROLL.

Inductive propval :=
| PInt (z : Z)
| PStr (s : string)
| PBool (b : bool)
| PCaps (s : string).

(** An element made by [Gst.ElementFactory.make(factory, name)]; its
    properties are a dictionary. *)
Record element := Element {
  el_factory : string;
  el_props : gmap string propval;
}.

(** A Python object passed through untouched (the callback, its data). *)
Definition pyref := nat.

Inductive handler := OnError | OnEos.

Inductive link_outcome :=
| LinkOk                 (* [link] returns True *)
| LinkRefused            (* [link] returns False *)
| LinkRaises (e : exn).  (* [link] raises *)

(** A message on the pipeline's bus. *)
Inductive message :=
| ErrorMessage (err_message debug : string)
| EosMessage.

Definition signal_name (msg : message) : string :=
  match msg with
  | ErrorMessage _ _ => "message::error"
  | EosMessage => "message::eos"
  end.

(** What the main loop sees while it runs. *)
Inductive event :=
| EvBuffer              (* a buffer passes the probed pad: the caller's callback runs *)
| EvBus (msg : message) (* a message is posted on the bus *)
| EvQuit                (* somebody outside the class calls [loop.quit()] *)
| EvRaise (e : exn).    (* [loop.run()] raises *)

(** What the collaborators answer. *)
Record framework := Framework {
  file_abspath : string;                        (* os.path.abspath(__file__) *)
  path_exists : string -> bool;                 (* os.path.exists *)
  factory_make : string -> string -> bool;      (* does make(factory, name) give an element *)
  link_result : string -> string -> link_outcome;
  playing_result : StateChangeReturn;           (* pipeline.set_state(PLAYING) *)
}.

(** ** The state: the process, the instance and the objects it owns *)

Record state := State {
  gst_inits : nat;                        (* calls of Gst.init so far *)
  stdout : list string;                   (* printed lines, oldest first *)
  pipelines : nat;                        (* Gst.Pipeline objects created *)
  heap : gmap string element;             (* elements, by element name *)
  callback_function : option pyref;       (* self.callback_function *)
  user_data : option pyref;               (* self.user_data *)
  hef_path : option string;               (* self.hef_path *)
  attrs : gmap string (option string);    (* self.src ... self.sink: None or an element name *)
  caps : option string;                   (* self.caps *)
  pstate : GstState;                      (* state of self.pipeline *)
  children : list string;                 (* pipeline.add, in order *)
  links : list (string * string);         (* successful links, in order *)
  probes : list (string * string * pyref * pyref);  (* element, pad, callback, data *)
  bus_watch : bool;                       (* bus.add_signal_watch() *)
  bus_handlers : list (string * handler); (* bus.connect, in order *)
  loop : option bool;                     (* self.loop: absent, or is_running() *)
}.

(** The state in which [__init__] starts: a process that has called
    [Gst.init] [n] times and printed [out], and a new instance without
    attributes. *)
Definition initial (n : nat) (out : list string) : state :=
  State n out 0 ∅ None None None ∅ None NULL [] [] [] false [] None.

(** Field updates ([with_f v st] is [st] with field [f] set to [v]). *)

Definition with_gst_inits (v : nat) (st : state) : state :=
  State v (stdout st) (pipelines st) (heap st) (callback_function st) (user_data st)
    (hef_path st) (attrs st) (caps st) (pstate st) (children st)
    (links st) (probes st) (bus_watch st) (bus_handlers st) (loop st).

Definition with_stdout (v : list string) (st : state) : state :=
  State (gst_inits st) v (pipelines st) (heap st) (callback_function st) (user_data st)
    (hef_path st) (attrs st) (caps st) (pstate st) (children st)
    (links st) (probes st) (bus_watch st) (bus_handlers st) (loop st).

Definition with_pipelines (v : nat) (st : state) : state :=
  State (gst_inits st) (stdout st) v (heap st) (callback_function st) (user_data st)
    (hef_path st) (attrs st) (caps st) (pstate st) (children st)
    (links st) (probes st) (bus_watch st) (bus_handlers st) (loop st).

Definition with_heap (v : gmap string element) (st : state) : state :=
  State (gst_inits st) (stdout st) (pipelines st) v (callback_function st) (user_data st)
    (hef_path st) (attrs st) (caps st) (pstate st) (children st)
    (links st) (probes st) (bus_watch st) (bus_handlers st) (loop st).

Definition with_callback_function (v : option pyref) (st : state) : state :=
  State (gst_inits st) (stdout st) (pipelines st) (heap st) v (user_data st)
    (hef_path st) (attrs st) (caps st) (pstate st) (children st)
    (links st) (probes st) (bus_watch st) (bus_handlers st) (loop st).

Definition with_user_data (v : option pyref) (st : state) : state :=
  State (gst_inits st) (stdout st) (pipelines st) (heap st) (callback_function st) v
    (hef_path st) (attrs st) (caps st) (pstate st) (children st)
    (links st) (probes st) (bus_watch st) (bus_handlers st) (loop st).

Definition with_hef_path (v : option string) (st : state) : state :=
  State (gst_inits st) (stdout st) (pipelines st) (heap st) (callback_function st) (user_data st)
    v (attrs st) (caps st) (pstate st) (children st)
    (links st) (probes st) (bus_watch st) (bus_handlers st) (loop st).

Definition with_attrs (v : gmap string (option string)) (st : state) : state :=
  State (gst_inits st) (stdout st) (pipelines st) (heap st) (callback_function st) (user_data st)
    (hef_path st) v (caps st) (pstate st) (children st)
    (links st) (probes st) (bus_watch st) (bus_handlers st) (loop st).

Definition with_caps (v : option string) (st : state) : state :=
  State (gst_inits st) (stdout st) (pipelines st) (heap st) (callback_function st) (user_data st)
    (hef_path st) (attrs st) v (pstate st) (children st)
    (links st) (probes st) (bus_watch st) (bus_handlers st) (loop st).

Definition with_pstate (v : GstState) (st : state) : state :=
  State (gst_inits st) (stdout st) (pipelines st) (heap st) (callback_function st) (user_data st)
    (hef_path st) (attrs st) (caps st) v (children st)
    (links st) (probes st) (bus_watch st) (bus_handlers st) (loop st).

Definition with_children (v : list string) (st : state) : state :=
  State (gst_inits st) (stdout st) (pipelines st) (heap st) (callback_function st) (user_data st)
    (hef_path st) (attrs st) (caps st) (pstate st) v
    (links st) (probes st) (bus_watch st) (bus_handlers st) (loop st).

Definition with_links (v : list (string * string)) (st : state) : state :=
  State (gst_inits st) (stdout st) (pipelines st) (heap st) (callback_function st) (user_data st)
    (hef_path st) (attrs st) (caps st) (pstate st) (children st)
    v (probes st) (bus_watch st) (bus_handlers st) (loop st).

Definition with_probes (v : list (string * string * pyref * pyref)) (st : state) : state :=
  State (gst_inits st) (stdout st) (pipelines st) (heap st) (callback_function st) (user_data st)
    (hef_path st) (attrs st) (caps st) (pstate st) (children st)
    (links st) v (bus_watch st) (bus_handlers st) (loop st).

Definition with_bus_watch (v : bool) (st : state) : state :=
  State (gst_inits st) (stdout st) (pipelines st) (heap st) (callback_function st) (user_data st)
    (hef_path st) (attrs st) (caps st) (pstate st) (children st)
    (links st) (probes st) v (bus_handlers st) (loop st).

Definition with_bus_handlers (v : list (string * handler)) (st : state) : state :=
  State (gst_inits st) (stdout st) (pipelines st) (heap st) (callback_function st) (user_data st)
    (hef_path st) (attrs st) (caps st) (pstate st) (children st)
    (links st) (probes st) (bus_watch st) v (loop st).

Definition with_loop (v : option bool) (st : state) : state :=
  State (gst_inits st) (stdout st) (pipelines st) (heap st) (callback_function st) (user_data st)
    (hef_path st) (attrs st) (caps st) (pstate st) (children st)
    (links st) (probes st) (bus_watch st) (bus_handlers st) v.

(** ** A state and exception monad for the methods *)

Definition M (A : Type) : Type := state -> outcome A * state.

Definition ret {A} (a : A) : M A := fun st => (Ret a, st).

Definition raise {A} (e : exn) : M A := fun st => (Raise e, st).

Definition hang {A} : M A := fun st => (Hang, st).

Definition bind {A B} (m : M A) (k : A -> M B) : M B :=
  fun st =>
    match m st with
    | (Ret a, st') => k a st'
    | (Raise e, st') => (Raise e, st')
    | (Hang, st') => (Hang, st')
    end.

Notation "x <- m ;; k" := (bind m (fun x => k))
  (at level 20, m at level 99, k at level 200, format "x  <-  m  ;;  '/' k").
Notation "m ;; k" := (bind m (fun _ => k))
  (at level 100, k at level 200, right associativity, format "m  ;;  '/' k").

Definition get : M state := fun st => (Ret st, st).

Definition modify (f : state -> state) : M unit := fun st => (Ret tt, f st).

(** [try: m except Exception as e: h e] *)
Definition try_except {A} (m : M A) (h : exn -> M A) : M A :=
  fun st =>
    match m st with
    | (Raise e, st') =>
        if is_Exception (exn_cls e) then h e st' else (Raise e, st')
    | r => r
    end.

(** [try: m finally: f]: [f] runs when [m] returns and when it raises; what
    [f] raises replaces what [m] raised. *)
Definition try_finally {A} (m : M A) (f : M unit) : M A :=
  fun st =>
    match m st with
    | (Ret a, st') => (f ;; ret a) st'
    | (Raise e, st') => (f ;; raise e) st'
    | (Hang, st') => (Hang, st')
    end.

(** A Python exception inside a GLib signal handler is reported by the
    binding and goes no further. *)
Definition swallow (m : M unit) : M unit :=
  fun st =>
    match m st with
    | (Raise _, st') => (Ret tt, st')
    | r => r
    end.

Fixpoint for_each {A} (l : list A) (body : A -> M unit) : M unit :=
  match l with
  | [] => ret tt
  | x :: l' => body x ;; for_each l' body
  end.

Fixpoint map_m {A B} (f : A -> M B) (l : list A) : M (list B) :=
  match l with
  | [] => ret []
  | x :: l' => y <- f x ;; ys <- map_m f l' ;; ret (y :: ys)
  end.

(** ** Python and framework primitives *)

(** [print(line)] *)
Definition print (line : string) : M unit :=
  modify (fun st => with_stdout (stdout st ++ [line]) st).

(** [not x] for an element or None *)
Definition truthy (h : option string) : bool :=
  match h with Some _ => true | None => false end.

(** [str(None)] *)
Definition str_None : string := "None".

Definition no_attribute (obj attr : string) : exn :=
  Exn AttributeError ("'" +:+ obj +:+ "' object has no attribute '" +:+ attr +:+ "'").

(** [self.<a> = v] and [self.<a>] for the stage attributes *)
Definition setattr (a : string) (v : option string) : M unit :=
  modify (fun st => with_attrs (<[a := v]> (attrs st)) st).

Definition getattr (a : string) : M (option string) :=
  st <- get ;;
  match attrs st !! a with
  | Some v => ret v
  | None => raise (no_attribute "GStreamerIPCameraApp" a)
  end.

Definition get_hef_path : M string :=
  st <- get ;;
  match hef_path st with
  | Some p => ret p
  | None => raise (no_attribute "GStreamerIPCameraApp" "hef_path")
  end.

Definition get_caps : M string :=
  st <- get ;;
  match caps st with
  | Some c => ret c
  | None => raise (no_attribute "GStreamerIPCameraApp" "caps")
  end.

(** [models[k]] *)
Definition getitem (k : string) (d : registry) : M string :=
  match py_getitem k d with
  | Some v => ret v
  | None => raise (Exn KeyError k)
  end.

(** [Gst.init(None)] *)
Definition gst_init : M unit :=
  modify (fun st => with_gst_inits (S (gst_inits st)) st).

(** [self.pipeline = Gst.Pipeline()]: a new, empty pipeline in state NULL *)
Definition new_pipeline : M unit :=
  modify (fun st =>
    with_pipelines (S (pipelines st))
      (with_pstate NULL (with_children [] (with_links []
        (with_bus_watch false (with_bus_handlers [] st)))))).

(** [element.set_property(key, v)] *)
Definition set_property (h : option string) (key : string) (v : propval) : M unit :=
  match h with
  | None => raise (no_attribute "NoneType" "set_property")
  | Some n =>
      modify (fun st =>
        with_heap
          (alter (fun e => Element (el_factory e) (<[key := v]> (el_props e))) n (heap st))
          st)
  end.

(** [self.pipeline.add(element)] *)
Definition pipeline_add (n : string) : M unit :=
  modify (fun st => with_children (children st ++ [n]) st).

(** [element.get_static_pad(pad)]: the pad, as (element, pad name) *)
Definition get_static_pad (h : option string) (pad : string) : M (string * string) :=
  match h with
  | None => raise (no_attribute "NoneType" "get_static_pad")
  | Some n => ret (n, pad)
  end.

(** [pad.add_probe(Gst.PadProbeType.BUFFER, self.callback_function, self.user_data)] *)
Definition add_probe (pad : string * string) : M unit :=
  st <- get ;;
  match callback_function st, user_data st with
  | Some cb, Some ud =>
      modify (fun st => with_probes (probes st ++ [(pad.1, pad.2, cb, ud)]) st)
  | None, _ => raise (no_attribute "GStreamerIPCameraApp" "callback_function")
  | _, None => raise (no_attribute "GStreamerIPCameraApp" "user_data")
  end.

(** [bus.add_signal_watch()] and [bus.connect(signal, handler)] *)
Definition add_signal_watch : M unit := modify (with_bus_watch true).

Definition bus_connect (signal : string) (h : handler) : M unit :=
  modify (fun st => with_bus_handlers (bus_handlers st ++ [(signal, h)]) st).

(** [self.loop.quit()] *)
Definition loop_quit : M unit :=
  st <- get ;;
  match loop st with
  | Some _ => modify (with_loop (Some false))
  | None => raise (no_attribute "GStreamerIPCameraApp" "loop")
  end.

(** The two literals of [create_elements]. *)
Definition camera_location : string :=
  "http://14.160.87.118:82/cgi-bin/camera?resolution=640&quality=1&Language=0&1733285069".

Definition video_caps : string := "video/x-raw,format=RGB,width=640,height=480".

(** ** The class [GStreamerIPCameraApp] *)

Section GStreamerIPCameraApp.

Variable fw : framework.

(** [self.<a> = Gst.ElementFactory.make(factory, name)]: the element, or
    None when the framework has no such factory. *)
Definition make (factory name : string) : M (option string) :=
  if factory_make fw factory name then
    modify (fun st => with_heap (<[name := Element factory ∅]> (heap st)) st) ;;
    ret (Some name)
  else ret None.

Definition self_make (a factory name : string) : M unit :=
  h <- make factory name ;; setattr a h.

(** [self.<a>.set_property(key, v)] *)
Definition self_set_property (a key : string) (v : propval) : M unit :=
  h <- getattr a ;; set_property h key v.

(** [a.link(b)]; the boolean it returns is dropped by every caller. *)
Definition link (a b : option string) : M unit :=
  match a, b with
  | None, _ => raise (no_attribute "NoneType" "link")
  | Some _, None => raise (Exn TypeError "argument dest: Expected Gst.Element, but got NoneType")
  | Some x, Some y =>
      match link_result fw x y with
      | LinkOk => modify (fun st => with_links (links st ++ [(x, y)]) st)
      | LinkRefused => ret tt
      | LinkRaises e => raise e
      end
  end.

(** [self.<a>.link(self.<b>)] *)
Definition self_link (a b : string) : M unit :=
  x <- getattr a ;; y <- getattr b ;; link x y.

(** [pipeline.set_state(target)].  Only the change to PLAYING is checked by
    the source and can be refused here; going down to NULL succeeds. *)
Definition pipeline_set_state (target : GstState) : M StateChangeReturn :=
  match target with
  | PLAYING =>
      match playing_result fw with
      | FAILURE => ret FAILURE
      | r => modify (with_pstate PLAYING) ;; ret r
      end
  | _ => modify (with_pstate target) ;; ret SUCCESS
  end.

Definition verify_elements : M unit :=
  elements <- map_m getattr
    ["src"; "jpegdec"; "videoconvert"; "videoscale";
     "capsfilter"; "queue1"; "queue2";
     "hailonet"; "hailofilter"; "sink"] ;;
  for_each elements (fun element =>
    match element with
    | None => raise (Exn RuntimeError ("Could not create " +:+ str_None))
    | Some n => pipeline_add n
    end).

Definition add_and_link_elements : M unit :=
  try_except
    (self_link "src" "jpegdec" ;;
     self_link "jpegdec" "videoconvert" ;;
     self_link "videoconvert" "videoscale" ;;
     self_link "videoscale" "capsfilter" ;;
     self_link "capsfilter" "queue1" ;;
     self_link "queue1" "hailonet" ;;
     self_link "hailonet" "hailofilter" ;;
     self_link "hailofilter" "queue2" ;;
     self_link "queue2" "sink")
    (fun e => raise (Exn RuntimeError ("Failed to link elements: " +:+ exn_msg e))).

Definition create_elements : M unit :=
  (* Source elements *)
  self_make "src" "souphttpsrc" "source" ;;
  self_set_property "src" "location" (PStr camera_location) ;;
  self_set_property "src" "timeout" (PInt 5) ;;
  self_set_property "src" "retries" (PInt 3) ;;
  (* Decoding and conversion elements *)
  self_make "jpegdec" "jpegdec" "jpeg-decoder" ;;
  self_make "videoconvert" "videoconvert" "converter" ;;
  self_make "videoscale" "videoscale" "scaler" ;;
  (* Queue elements *)
  self_make "queue1" "queue" "queue1" ;;
  self_make "queue2" "queue" "queue2" ;;
  (* Configure queues *)
  queue1 <- getattr "queue1" ;;
  queue2 <- getattr "queue2" ;;
  for_each [queue1; queue2] (fun queue =>
    set_property queue "max-size-buffers" (PInt 10) ;;
    set_property queue "max-size-time" (PInt 0) ;;
    set_property queue "max-size-bytes" (PInt 0)) ;;
  (* Video format configuration *)
  modify (with_caps (Some video_caps)) ;;      (* Gst.Caps.from_string(...) *)
  self_make "capsfilter" "capsfilter" "capsfilter" ;;
  c <- get_caps ;;
  self_set_property "capsfilter" "caps" (PCaps c) ;;
  (* Hailo elements *)
  self_make "hailonet" "hailonet" "hailonet" ;;
  hailonet <- getattr "hailonet" ;;
  (if negb (truthy hailonet) then
     raise (Exn RuntimeError
       "Could not create hailonet element. Make sure Hailo GStreamer plugins are installed.")
   else ret tt) ;;
  self_make "hailofilter" "hailofilter" "hailofilter" ;;
  hailofilter <- getattr "hailofilter" ;;
  (if negb (truthy hailofilter) then
     raise (Exn RuntimeError
       "Could not create hailofilter element. Make sure Hailo GStreamer plugins are installed.")
   else ret tt) ;;
  (* Configure Hailo properties *)
  p <- get_hef_path ;;
  self_set_property "hailonet" "hef-path" (PStr p) ;;
  self_set_property "hailonet" "batch-size" (PInt 1) ;;
  (* Display element *)
  self_make "sink" "autovideosink" "sink" ;;
  self_set_property "sink" "sync" (PBool false) ;;
  (* Verify and add elements *)
  verify_elements ;;
  (* Link elements *)
  add_and_link_elements.

(** The directory the registry's relative paths are joined to:
    [os.path.join(os.path.dirname(current_dir), 'resources')]. *)
Definition resources_dir : string :=
  let current_dir := PosixPath.dirname (file_abspath fw) in
  PosixPath.join (PosixPath.dirname current_dir) "resources".

Definition __init__ (callback_function user_data : pyref)
    (model_name : string) (is_hailo8l : bool) : M unit :=
  modify (with_callback_function (Some callback_function)) ;;
  modify (with_user_data (Some user_data)) ;;
  (* Select model path based on hardware *)
  let models := if is_hailo8l then HAILO8L_MODELS else HAILO8_MODELS in
  (if negb (py_in model_name models) then
     let available_models := py_join ", " (keys models) in
     raise (Exn ValueError
       ("Model " +:+ model_name +:+ " not found. Available models: " +:+ available_models))
   else ret tt) ;;
  (* Construct absolute path to HEF file *)
  rel <- getitem model_name models ;;
  modify (with_hef_path (Some (PosixPath.join resources_dir rel))) ;;
  p <- get_hef_path ;;
  (if negb (path_exists fw p) then
     raise (Exn RuntimeError ("HEF file not found at " +:+ p))
   else ret tt) ;;
  (* Initialize GStreamer *)
  gst_init ;;
  (* Create the pipeline *)
  new_pipeline ;;
  (* Create pipeline elements *)
  create_elements ;;
  (* Add probe to get the detections *)
  hailofilter <- getattr "hailofilter" ;;
  pad <- get_static_pad hailofilter "src" ;;
  add_probe pad ;;
  (* Add error handling *)
  add_signal_watch ;;
  bus_connect "message::error" OnError ;;
  bus_connect "message::eos" OnEos.

Definition cleanup : M unit :=
  print "Cleaning up pipeline..." ;;
  pipeline_set_state NULL ;;
  st <- get ;;
  match loop st with
  | Some true => loop_quit     (* hasattr(self, 'loop') and self.loop.is_running() *)
  | _ => ret tt
  end.

(** [err, debug = message.parse_error()] then [err.message]: the text of
    the error and the debug string; on a message that is no error message
    the binding hands back None and [err.message] raises. *)
Definition parse_error (msg : message) : M (string * string) :=
  match msg with
  | ErrorMessage err_message debug => ret (err_message, debug)
  | EosMessage => raise (no_attribute "NoneType" "message")
  end.

Definition on_error (msg : message) : M unit :=
  parsed <- parse_error msg ;;
  let err_message := parsed.1 in
  let debug := parsed.2 in
  print ("Pipeline error: " +:+ err_message) ;;
  print ("Debug info: " +:+ debug) ;;
  cleanup ;;
  loop_quit.

Definition on_eos (msg : message) : M unit :=
  print "End of stream reached" ;;
  cleanup ;;
  loop_quit.

(** *** The main loop *)

Definition run_handler (h : handler) (msg : message) : M unit :=
  match h with
  | OnError => on_error msg
  | OnEos => on_eos msg
  end.

(** The bus emits [message::<type>] to the handlers connected to it, in the
    order of connection, once a signal watch is installed. *)
Definition emit (msg : message) : M unit :=
  st <- get ;;
  if bus_watch st then
    for_each
      (List.filter (fun sh => String.eqb sh.1 (signal_name msg)) (bus_handlers st))
      (fun sh => swallow (run_handler sh.2 msg))
  else ret tt.

Definition dispatch (ev : event) : M unit :=
  match ev with
  | EvBuffer => ret tt
  | EvBus msg => emit msg
  | EvQuit => loop_quit
  | EvRaise e => raise e
  end.

(** One iteration per event; the loop returns once it is no longer
    running, and waits for ever when the events run out before that. *)
Fixpoint iterate (evs : list event) : M unit :=
  match evs with
  | [] => hang
  | ev :: rest =>
      dispatch ev ;;
      st <- get ;;
      match loop st with
      | Some true => iterate rest
      | _ => ret tt
      end
  end.

(** [self.loop.run()] *)
Definition loop_run (evs : list event) : M unit :=
  modify (with_loop (Some true)) ;;
  iterate evs.

(** [run], with the events the main loop is going to see. *)
Definition run (evs : list event) : M unit :=
  r <- pipeline_set_state PLAYING ;;
  (match r with
   | FAILURE => raise (Exn RuntimeError "Unable to set the pipeline to the playing state")
   | _ => ret tt
   end) ;;
  modify (with_loop (Some false)) ;;      (* self.loop = GLib.MainLoop() *)
  try_finally
    (try_except (loop_run evs)
       (fun e => print ("Pipeline error: " +:+ exn_msg e) ;; raise e))
    cleanup.

End GStreamerIPCameraApp.

(** ** Vocabulary of the statements *)

(** The registry the hardware flag selects, as [__init__] selects it. *)
Definition models_for (is_hailo8l : bool) : registry :=
  if is_hailo8l then HAILO8L_MODELS else HAILO8_MODELS.

(** The ten stages in the order of the data flow: attribute of the
    instance, factory, element name. *)
Definition stage_chain : list (string * string * string) :=
  [ ("src", "souphttpsrc", "source");
    ("jpegdec", "jpegdec", "jpeg-decoder");
    ("videoconvert", "videoconvert", "converter");
    ("videoscale", "videoscale", "scaler");
    ("capsfilter", "capsfilter", "capsfilter");
    ("queue1", "queue", "queue1");
    ("hailonet", "hailonet", "hailonet");
    ("hailofilter", "hailofilter", "hailofilter");
    ("queue2", "queue", "queue2");
    ("sink", "autovideosink", "sink") ].

Definition chain_names : list string := map snd stage_chain.

(** Neighbours of a list, pairwise: [a; b; c] gives [(a, b); (b, c)]. *)
Fixpoint neighbours {A} (l : list A) : list (A * A) :=
  match l with
  | a :: (b :: _) as l' => (a, b) :: neighbours l'
  | _ => []
  end.

Definition all_stages_made (fw : framework) : Prop :=
  Forall (fun s => factory_make fw s.1.2 s.2 = true) stage_chain.

Definition all_links_accepted (fw : framework) : Prop :=
  Forall (fun ab => link_result fw ab.1 ab.2 = LinkOk) (neighbours chain_names).

(** The properties both queues end up with. *)
Definition queue_props : gmap string propval :=
  list_to_map
    [ ("max-size-buffers", PInt 10); ("max-size-time", PInt 0); ("max-size-bytes", PInt 0) ].

(** The elements of a constructed instance whose model file is [p]. *)
Definition assembled_heap (p : string) : gmap string element :=
  list_to_map
    [ ("source", Element "souphttpsrc"
         (list_to_map [ ("location", PStr camera_location); ("timeout", PInt 5); ("retries", PInt 3) ]));
      ("jpeg-decoder", Element "jpegdec" ∅);
      ("converter", Element "videoconvert" ∅);
      ("scaler", Element "videoscale" ∅);
      ("capsfilter", Element "capsfilter" (list_to_map [ ("caps", PCaps video_caps) ]));
      ("queue1", Element "queue" queue_props);
      ("hailonet", Element "hailonet"
         (list_to_map [ ("hef-path", PStr p); ("batch-size", PInt 1) ]));
      ("hailofilter", Element "hailofilter" ∅);
      ("queue2", Element "queue" queue_props);
      ("sink", Element "autovideosink" (list_to_map [ ("sync", PBool false) ])) ].

Definition assembled_attrs : gmap string (option string) :=
  list_to_map (map (fun s => (s.1.1, Some s.2)) stage_chain).

(** The state a successful [__init__] leaves, up to the links the
    framework accepted. *)
Definition assembled (cb ud : pyref) (p : string) (n : nat) (out : list string)
    (l : list (string * string)) : state :=
  State (S n) out 1 (assembled_heap p) (Some cb) (Some ud) (Some p)
    assembled_attrs (Some video_caps) NULL
    [ "source"; "jpeg-decoder"; "converter"; "scaler"; "capsfilter";
      "queue1"; "queue2"; "hailonet"; "hailofilter"; "sink" ]
    l [ ("hailofilter", "src", cb, ud) ] true
    [ ("message::error", OnError); ("message::eos", OnEos) ] None.

(** Both bus handlers are connected and the bus is watched. *)
Definition wired (st : state) : Prop :=
  bus_watch st = true /\
  bus_handlers st = [ ("message::error", OnError); ("message::eos", OnEos) ].

(** What of the state belongs to the framework rather than to the
    attributes [__init__] stores first: initialisations, pipelines,
    elements, and what was added, linked, probed and connected. *)
Definition framework_side (st : state) :=
  (gst_inits st, pipelines st, heap st, children st, links st, probes st,
   bus_watch st, bus_handlers st).

(** Every call of [cleanup] prints this line first, and nothing else of
    the class prints it: the number of such lines counts the calls. *)
Definition cleanup_line : string := "Cleaning up pipeline...".

Definition cleanup_calls (st : state) : nat :=
  length (List.filter (String.eqb cleanup_line) (stdout st)).

(** The first event that is not a buffer: the one that ends the loop. *)
Fixpoint first_exit (evs : list event) : option event :=
  match evs with
  | [] => None
  | EvBuffer :: rest => first_exit rest
  | ev :: _ => Some ev
  end.

(** The state in which [create_elements] starts when the two checks of
    [__init__] have passed for the model file [p]. *)
Definition prepared (cb ud : pyref) (p : string) (n : nat) (out : list string) : state :=
  State (S n) out 1 ∅ (Some cb) (Some ud) (Some p) ∅ None NULL [] [] [] false [] None.

(** The state in which [add_and_link_elements] starts when every stage
    could be made. *)
Definition verified (cb ud : pyref) (p : string) (n : nat) (out : list string) : state :=
  State (S n) out 1 (assembled_heap p) (Some cb) (Some ud) (Some p)
    assembled_attrs (Some video_caps) NULL
    [ "source"; "jpeg-decoder"; "converter"; "scaler"; "capsfilter";
      "queue1"; "queue2"; "hailonet"; "hailofilter"; "sink" ]
    [] [] false [] None.

(** A computation that changes nothing of the state but the links. *)
Definition links_only {A} (m : M A) : Prop :=
  forall st, exists l, (m st).2 = with_links l st.

(** The state without what was printed. *)
Definition quiet (st : state) : state := with_stdout [] st.

(** [st] after [lines] were printed, with the pipeline in state NULL and
    the loop stopped. *)
Definition stopped (lines : list string) (st : state) : state :=
  with_loop (Some false) (with_pstate NULL (with_stdout (stdout st ++ lines) st)).

(** What [run] prints when the event [ev] ends the loop, and how it ends. *)
Definition run_output (ev : event) : list string :=
  match ev with
  | EvBuffer => []
  | EvBus (ErrorMessage err_message debug) =>
      [ "Pipeline error: " +:+ err_message; "Debug info: " +:+ debug;
        cleanup_line; cleanup_line ]
  | EvBus EosMessage => [ "End of stream reached"; cleanup_line; cleanup_line ]
  | EvQuit => [ cleanup_line ]
  | EvRaise e =>
      if is_Exception (exn_cls e)
      then [ "Pipeline error: " +:+ exn_msg e; cleanup_line ]
      else [ cleanup_line ]
  end.

Definition run_outcome (ev : event) : outcome unit :=
  match ev with
  | EvRaise e => Raise e
  | _ => Ret tt
  end.

(** Calls of [cleanup] by the time [run] is over: the bus handlers call it
    themselves before the [finally] block does. *)
Definition exit_cleanups (ev : event) : nat :=
  match ev with
  | EvBus _ => 2
  | _ => 1
  end.

(** ** Vocabulary of the further properties *)

(** The attributes [verify_elements] goes through, in its order. *)
Definition verify_attrs : list string :=
  [ "src"; "jpegdec"; "videoconvert"; "videoscale";
    "capsfilter"; "queue1"; "queue2";
    "hailonet"; "hailofilter"; "sink" ].

(** The elements at the head of a list, up to the first None. *)
Fixpoint made_prefix (hs : list (option string)) : list string :=
  match hs with
  | Some n :: rest => n :: made_prefix rest
  | _ => []
  end.

(** The pairs of attributes [add_and_link_elements] links, in its order. *)
Definition link_attrs : list (string * string) :=
  neighbours (map (fun s => s.1.1) stage_chain).

Definition link_accepted (fw : framework) (ab : string * string) : bool :=
  match link_result fw ab.1 ab.2 with
  | LinkOk => true
  | _ => false
  end.

Definition link_raises (fw : framework) (ab : string * string) : Prop :=
  exists e, link_result fw ab.1 ab.2 = LinkRaises e.

(** Of the nine links asked for, those the framework accepts. *)
Definition accepted_links (fw : framework) : list (string * string) :=
  List.filter (link_accepted fw) (neighbours chain_names).

Definition no_link_raises (fw : framework) : Prop :=
  Forall (fun ab => ~ link_raises fw ab) (neighbours chain_names).

(** The attributes [A] hold the elements of [eps] under the names of
    [aps], pair by pair. *)
Definition resolves (A : gmap string (option string))
    (aps eps : list (string * string)) : Prop :=
  Forall2
    (fun ap ep => A !! ap.1 = Some (Some ep.1) /\ A !! ap.2 = Some (Some ep.2))
    aps eps.

(** What is counted per process: initialisations and pipelines. *)
Definition counts (st : state) : nat * nat := (gst_inits st, pipelines st).

(** A computation that leaves a view of the state as it was. *)
Definition keeps {A B} (f : state -> B) (m : M A) : Prop :=
  forall st, f (m st).2 = f st.

(** *** Concrete frameworks *)

Definition script_path : string :=
  "/opt/app/basic_pipelines/ipcamera_detection_pipeline.py".

(** Everything is there and every request is granted. *)
Definition fw_ok : framework :=
  Framework script_path (fun _ => true) (fun _ _ => true) (fun _ _ => LinkOk) SUCCESS.

(** As [fw_ok], but the element named [missing] cannot be made. *)
Definition fw_without (missing : string) : framework :=
  Framework script_path (fun _ => true)
    (fun _ name => negb (String.eqb name missing)) (fun _ _ => LinkOk) SUCCESS.

(** As [fw_ok], but no file exists. *)
Definition fw_no_file : framework :=
  Framework script_path (fun _ => false) (fun _ _ => true) (fun _ _ => LinkOk) SUCCESS.

(** A constructed instance, for the examples. *)
Definition app_ok : state :=
  (__init__ fw_ok 1 2 "yolov5m" false (initial 0 [])).2.

(** As [fw_ok], but the link from [a] to [b] is refused. *)
Definition fw_refusing (a b : string) : framework :=
  Framework script_path (fun _ => true) (fun _ _ => true)
    (fun x y => if String.eqb x a && String.eqb y b then LinkRefused else LinkOk)
    SUCCESS.

(** As [fw_ok], but the link from [a] to [b] raises [e]. *)
Definition fw_link_raising (a b : string) (e : exn) : framework :=
  Framework script_path (fun _ => true) (fun _ _ => true)
    (fun x y => if String.eqb x a && String.eqb y b then LinkRaises e else LinkOk)
    SUCCESS.

(** As [fw_ok], but the pipeline refuses to play. *)
Definition fw_not_playing : framework :=
  Framework script_path (fun _ => true) (fun _ _ => true) (fun _ _ => LinkOk) FAILURE.

(** An instance on which the scaler could not be made: its attribute
    holds None. *)
Definition app_unscaled : state :=
  with_attrs (<["videoscale" := None]> assembled_attrs)
    (prepared 1 2 "model.hef" 0 []).

(** The installation directory: the parent of the directory of the
    script, [os.path.dirname(current_dir)], under which [__init__] takes
    its directory "resources". *)
Definition install_dir (fw : framework) : string :=
  PosixPath.dirname (PosixPath.dirname (file_abspath fw)).

(** As [fw_ok], but the only file there is is the yolov5m model, in the
    directory "resources" of the installation. *)
Definition fw_flat : framework :=
  Framework script_path (String.eqb "/opt/app/resources/yolov5m_wo_spp.hef")
    (fun _ _ => true) (fun _ _ => LinkOk) SUCCESS.

(** * Properties *)

(** ** Registries *)

Lemma py_in_keys k d : py_in k d = true <-> k ∈ keys d.
Proof.
  unfold py_in. rewrite existsb_exists. split.
  - intros [x [Hx Heq]]. apply String.eqb_eq in Heq. subst x.
    apply list_elem_of_In. exact Hx.
  - intros H. exists k. split; [apply list_elem_of_In; exact H | apply String.eqb_refl].
Qed.

Lemma py_in_false_keys k d : py_in k d = false <-> k ∉ keys d.
Proof.
  rewrite <- py_in_keys. destruct (py_in k d); split; intros H.
  - discriminate H.
  - exfalso. apply H. reflexivity.
  - intros H'. discriminate H'.
  - reflexivity.
Qed.

Lemma py_getitem_in k d v : py_getitem k d = Some v -> py_in k d = true.
Proof.
  unfold py_in, keys. induction d as [|[k' v'] d IH]; simpl; [discriminate|].
  destruct (String.eqb k k'); [reflexivity|]. exact IH.
Qed.

Lemma py_in_getitem k d : py_in k d = true -> exists v, py_getitem k d = Some v.
Proof.
  unfold py_in, keys. induction d as [|[k' v'] d IH]; simpl; [discriminate|].
  destruct (String.eqb k k'); [eauto|]. exact IH.
Qed.

(** ** Paths *)

Lemma append_assoc s t u : s +:+ t +:+ u = (s +:+ t) +:+ u.
Proof.
  induction s as [|c s IH]; [reflexivity|].
  change (String c s +:+ t +:+ u) with (String c (s +:+ t +:+ u)).
  rewrite IH. reflexivity.
Qed.

Lemma append_nonempty s t : t <> "" -> s +:+ t <> "".
Proof. destruct s; simpl; [tauto | discriminate]. Qed.

Lemma ends_with_sep_append s t :
  t <> "" -> PosixPath.ends_with_sep (s +:+ t) = PosixPath.ends_with_sep t.
Proof.
  intros Ht. induction s as [|c s IH]; [reflexivity|].
  change (String c s +:+ t) with (String c (s +:+ t)).
  pose proof (append_nonempty s t Ht) as Hne.
  simpl. destruct (s +:+ t) eqn:E; [contradiction Hne; reflexivity|]. exact IH.
Qed.

(** Whatever the script's path, [resources_dir] ends in the word
    "resources". *)
Lemma resources_dir_shape fw : exists d, resources_dir fw = d +:+ "resources".
Proof.
  unfold resources_dir, PosixPath.join. cbv zeta.
  set (d := PosixPath.dirname (PosixPath.dirname (file_abspath fw))).
  change (PosixPath.starts_with_sep "resources") with false. cbv iota.
  destruct (PosixPath.is_empty d || PosixPath.ends_with_sep d).
  - exists d. reflexivity.
  - exists (d +:+ "/"). apply append_assoc.
Qed.

(** Joining a relative path to [resources_dir] puts one separator between
    the two. *)
Lemma join_resources_dir fw rel :
  PosixPath.starts_with_sep rel = false ->
  PosixPath.join (resources_dir fw) rel = resources_dir fw +:+ "/" +:+ rel.
Proof.
  intros Hrel. destruct (resources_dir_shape fw) as [d Hd].
  unfold PosixPath.join. rewrite Hrel, Hd.
  rewrite ends_with_sep_append by discriminate.
  assert (Hne : PosixPath.is_empty (d +:+ "resources") = false).
  { destruct (d +:+ "resources") eqn:E; [|reflexivity].
    exfalso. revert E. apply append_nonempty. discriminate. }
  rewrite Hne. reflexivity.
Qed.

(** ** The two checks of [__init__] *)

Lemma init_unknown fw cb ud name lite st :
  py_in name (models_for lite) = false ->
  __init__ fw cb ud name lite st =
  (Raise (Exn ValueError
            ("Model " +:+ name +:+ " not found. Available models: "
               +:+ py_join ", " (keys (models_for lite)))),
   with_user_data (Some ud) (with_callback_function (Some cb) st)).
Proof.
  intros Hin. unfold __init__.
  change (if lite then HAILO8L_MODELS else HAILO8_MODELS) with (models_for lite).
  cbv zeta. rewrite Hin. reflexivity.
Qed.

Lemma init_missing fw cb ud name lite st rel :
  py_getitem name (models_for lite) = Some rel ->
  path_exists fw (PosixPath.join (resources_dir fw) rel) = false ->
  __init__ fw cb ud name lite st =
  (Raise (Exn RuntimeError
            ("HEF file not found at " +:+ PosixPath.join (resources_dir fw) rel)),
   with_hef_path (Some (PosixPath.join (resources_dir fw) rel))
     (with_user_data (Some ud) (with_callback_function (Some cb) st))).
Proof.
  intros Hrel Hex. pose proof (py_getitem_in _ _ _ Hrel) as Hin.
  unfold __init__, getitem.
  change (if lite then HAILO8L_MODELS else HAILO8_MODELS) with (models_for lite).
  cbv zeta. rewrite Hin, Hrel.
  cbv beta iota delta [bind modify ret raise get get_hef_path negb with_hef_path hef_path].
  rewrite Hex. reflexivity.
Qed.

(** Past the two checks, [__init__] is the rest of its body run from the
    state the checks leave. *)
Lemma init_passes fw cb ud name lite st rel :
  py_getitem name (models_for lite) = Some rel ->
  path_exists fw (PosixPath.join (resources_dir fw) rel) = true ->
  __init__ fw cb ud name lite st =
  (create_elements fw ;;
   hailofilter <- getattr "hailofilter" ;;
   pad <- get_static_pad hailofilter "src" ;;
   add_probe pad ;;
   add_signal_watch ;;
   bus_connect "message::error" OnError ;;
   bus_connect "message::eos" OnEos)
    (new_pipeline
       (gst_init
          (with_hef_path (Some (PosixPath.join (resources_dir fw) rel))
             (with_user_data (Some ud) (with_callback_function (Some cb) st)))).2).2.
Proof.
  intros Hrel Hex. pose proof (py_getitem_in _ _ _ Hrel) as Hin.
  unfold __init__, getitem.
  change (if lite then HAILO8L_MODELS else HAILO8_MODELS) with (models_for lite).
  cbv zeta. rewrite Hin, Hrel.
  cbv beta iota delta [bind modify ret raise get get_hef_path negb with_hef_path hef_path].
  rewrite Hex. reflexivity.
Qed.

Lemma prepared_eq cb ud p n out :
  (new_pipeline
     (gst_init
        (with_hef_path (Some p)
           (with_user_data (Some ud)
              (with_callback_function (Some cb) (initial n out))))).2).2
  = prepared cb ud p n out.
Proof. reflexivity. Qed.

(** C1. For every model name that is not a key of the registry the
    hardware flag selects ([HAILO8L_MODELS] for the lite variant,
    [HAILO8_MODELS] otherwise), [__init__] raises ValueError (the
    configuration error of the specification), and the message lists the
    keys of that registry, all of them and in the registry's order.  For
    "yolov5m" on the lite variant these are yolov8s, yolov6n and yolox_s:
    the witness below. *)
Theorem init_rejects_unknown_model fw cb ud model_name is_hailo8l st :
  (model_name ∉ keys (models_for is_hailo8l)) ->
  (__init__ fw cb ud model_name is_hailo8l st).1 =
  Raise (Exn ValueError
           ("Model " +:+ model_name +:+ " not found. Available models: "
              +:+ py_join ", " (keys (models_for is_hailo8l)))).
Proof.
  intros Hkey. apply py_in_false_keys in Hkey.
  rewrite (init_unknown fw cb ud _ _ st Hkey). reflexivity.
Qed.

Lemma init_rejects_unknown_model_witness :
  ("yolov5m" ∉ keys (models_for true)) /\
  (__init__ fw_ok 1 2 "yolov5m" true (initial 0 [])).1 =
  Raise (Exn ValueError
           "Model yolov5m not found. Available models: yolov8s, yolov6n, yolox_s").
Proof.
  assert (H : "yolov5m" ∉ keys (models_for true)).
  { apply py_in_false_keys. reflexivity. }
  split; [exact H|].
  exact (init_rejects_unknown_model fw_ok 1 2 "yolov5m" true (initial 0 []) H).
Defined.

(** C2. For every model name that is a key of the selected registry, with
    relative path [rel], when the file [os.path.join(resources_dir, rel)]
    does not exist, [__init__] raises RuntimeError "HEF file not found at
    ..." (the resource-not-found error of the specification), and no
    pipeline and no element has been created. *)
Theorem init_rejects_missing_file fw cb ud model_name is_hailo8l st rel :
  py_getitem model_name (models_for is_hailo8l) = Some rel ->
  path_exists fw (PosixPath.join (resources_dir fw) rel) = false ->
  let r := __init__ fw cb ud model_name is_hailo8l st in
  r.1 = Raise (Exn RuntimeError
                 ("HEF file not found at " +:+ PosixPath.join (resources_dir fw) rel)) /\
  pipelines r.2 = pipelines st /\
  heap r.2 = heap st /\
  children r.2 = children st.
Proof.
  intros Hrel Hex r. subst r.
  rewrite (init_missing fw cb ud _ _ st rel Hrel Hex).
  repeat split.
Qed.

Lemma init_rejects_missing_file_witness :
  py_getitem "yolov8s" (models_for true) = Some "resources/yolov8s_h8l.hef" /\
  path_exists fw_no_file
    (PosixPath.join (resources_dir fw_no_file) "resources/yolov8s_h8l.hef") = false /\
  (__init__ fw_no_file 1 2 "yolov8s" true (initial 0 [])).1 =
  Raise (Exn RuntimeError
           "HEF file not found at /opt/app/resources/resources/yolov8s_h8l.hef") /\
  pipelines (__init__ fw_no_file 1 2 "yolov8s" true (initial 0 [])).2 = 0.
Proof.
  pose proof (init_rejects_missing_file fw_no_file 1 2 "yolov8s" true (initial 0 [])
                "resources/yolov8s_h8l.hef" eq_refl eq_refl) as H.
  cbv zeta in H. destruct H as [Hraise [Hpipe _]].
  split; [reflexivity|]. split; [reflexivity|].
  split; [exact Hraise | exact Hpipe].
Defined.

(** C10. When [__init__] fails on one of its two checks (the model name is
    not in the selected registry, or it is and the model file is missing),
    it has raised before [Gst.init], [Gst.Pipeline()] and every
    [ElementFactory.make]: the count of initialisations, the count of
    pipelines, the elements and everything a pipeline would hold are what
    they were; only attributes of the instance have been assigned. *)
Theorem init_validation_failure_atomic fw cb ud model_name is_hailo8l st :
  ((model_name ∉ keys (models_for is_hailo8l)) \/
   exists rel,
     py_getitem model_name (models_for is_hailo8l) = Some rel /\
     path_exists fw (PosixPath.join (resources_dir fw) rel) = false) ->
  let r := __init__ fw cb ud model_name is_hailo8l st in
  (exists e, r.1 = Raise e) /\
  gst_inits r.2 = gst_inits st /\
  pipelines r.2 = pipelines st /\
  framework_side r.2 = framework_side st /\
  stdout r.2 = stdout st.
Proof.
  intros [Hkey | [rel [Hrel Hex]]] r; subst r.
  - apply py_in_false_keys in Hkey.
    rewrite (init_unknown fw cb ud _ _ st Hkey).
    split; [eexists; reflexivity | repeat split].
  - rewrite (init_missing fw cb ud _ _ st rel Hrel Hex).
    split; [eexists; reflexivity | repeat split].
Qed.

Lemma init_validation_failure_atomic_witness :
  (("yolox_s" ∉ keys (models_for false)) \/
   exists rel,
     py_getitem "yolox_s" (models_for false) = Some rel /\
     path_exists fw_ok (PosixPath.join (resources_dir fw_ok) rel) = false) /\
  gst_inits (__init__ fw_ok 1 2 "yolox_s" false (initial 7 [])).2 = 7 /\
  pipelines (__init__ fw_ok 1 2 "yolox_s" false (initial 7 [])).2 = 0.
Proof.
  assert (H : ("yolox_s" ∉ keys (models_for false)) \/
              exists rel,
                py_getitem "yolox_s" (models_for false) = Some rel /\
                path_exists fw_ok (PosixPath.join (resources_dir fw_ok) rel) = false).
  { left. apply py_in_false_keys. reflexivity. }
  split; [exact H|].
  pose proof (init_validation_failure_atomic fw_ok 1 2 "yolox_s" false (initial 7 []) H)
    as Hatomic.
  cbv zeta in Hatomic. destruct Hatomic as [_ [Hinit [Hpipe _]]].
  split; [exact Hinit | exact Hpipe].
Defined.

(** ** Monad steps *)

Lemma bind_Ret {A B} (m : M A) (k : A -> M B) st a s :
  m st = (Ret a, s) -> bind m k st = k a s.
Proof. intros H. unfold bind. rewrite H. reflexivity. Qed.

(** ** Linking touches the links only *)

Lemma with_links_same st : st = with_links (links st) st.
Proof. destruct st; reflexivity. Qed.

Lemma links_only_ret {A} (a : A) : links_only (ret a).
Proof. intros st. exists (links st). apply with_links_same. Qed.

Lemma links_only_raise {A} e : links_only (@raise A e).
Proof. intros st. exists (links st). apply with_links_same. Qed.

Lemma links_only_bind {A B} (m : M A) (k : A -> M B) :
  links_only m -> (forall a, links_only (k a)) -> links_only (bind m k).
Proof.
  intros Hm Hk st. unfold bind. destruct (Hm st) as [l Hl].
  destruct (m st) as [[a| |] s]; simpl in Hl; subst s.
  - destruct (Hk a (with_links l st)) as [l' Hl']. exists l'. rewrite Hl'. reflexivity.
  - exists l. reflexivity.
  - exists l. reflexivity.
Qed.

Lemma links_only_try_except {A} (m : M A) h :
  links_only m -> (forall e, links_only (h e)) -> links_only (try_except m h).
Proof.
  intros Hm Hh st. unfold try_except. destruct (Hm st) as [l Hl].
  destruct (m st) as [[a|e|] s]; simpl in Hl; subst s.
  - exists l. reflexivity.
  - destruct (is_Exception (exn_cls e)); [|exists l; reflexivity].
    destruct (Hh e (with_links l st)) as [l' Hl']. exists l'. rewrite Hl'. reflexivity.
  - exists l. reflexivity.
Qed.

Lemma links_only_getattr a : links_only (getattr a).
Proof.
  intros st. exists (links st). unfold getattr, bind, get.
  destruct (attrs st !! a); apply with_links_same.
Qed.

Lemma links_only_link fw a b : links_only (link fw a b).
Proof.
  intros st. unfold link. destruct a as [x|]; [destruct b as [y|]|].
  - destruct (link_result fw x y).
    + eexists; reflexivity.
    + exists (links st); apply with_links_same.
    + exists (links st); apply with_links_same.
  - exists (links st); apply with_links_same.
  - exists (links st); apply with_links_same.
Qed.

Create HintDb links_frame.

#[local] Hint Resolve links_only_ret links_only_raise links_only_getattr
  links_only_link : links_frame.
#[local] Hint Extern 2 (links_only (bind _ _)) =>
  apply links_only_bind; [|intro] : links_frame.
#[local] Hint Extern 2 (links_only (try_except _ _)) =>
  apply links_only_try_except; [|intro] : links_frame.

Lemma links_only_self_link fw a b : links_only (self_link fw a b).
Proof. unfold self_link. auto with links_frame. Qed.

#[local] Hint Resolve links_only_self_link : links_frame.

Lemma links_only_add_and_link fw : links_only (add_and_link_elements fw).
Proof. unfold add_and_link_elements. auto 20 with links_frame. Qed.

Lemma self_link_ok fw a b x y st :
  attrs st !! a = Some (Some x) ->
  attrs st !! b = Some (Some y) ->
  link_result fw x y = LinkOk ->
  self_link fw a b st = (Ret tt, with_links (links st ++ [(x, y)]) st).
Proof.
  intros Ha Hb Hl. unfold self_link, getattr, bind, get, link.
  rewrite Ha. cbn [ret attrs]. rewrite Hb. cbn [ret]. rewrite Hl. reflexivity.
Qed.

Lemma add_and_link_fwd fw st :
  all_links_accepted fw ->
  attrs st = assembled_attrs ->
  add_and_link_elements fw st =
  (Ret tt, with_links (links st ++ neighbours chain_names) st).
Proof.
  intros Hall Hattrs. unfold all_links_accepted in Hall.
  change (neighbours chain_names) with
    [ ("source", "jpeg-decoder"); ("jpeg-decoder", "converter");
      ("converter", "scaler"); ("scaler", "capsfilter");
      ("capsfilter", "queue1"); ("queue1", "hailonet");
      ("hailonet", "hailofilter"); ("hailofilter", "queue2");
      ("queue2", "sink") ] in *.
  repeat (apply Forall_cons_1 in Hall; destruct Hall as [? Hall]).
  cbn [fst snd] in *. clear Hall.
  unfold add_and_link_elements, try_except.
  repeat (erewrite bind_Ret;
    [|eapply self_link_ok;
      [cbn [attrs with_links]; rewrite Hattrs; vm_compute; reflexivity
      |cbn [attrs with_links]; rewrite Hattrs; vm_compute; reflexivity
      |eassumption]]).
  erewrite self_link_ok;
    [|cbn [attrs with_links]; rewrite Hattrs; vm_compute; reflexivity
     |cbn [attrs with_links]; rewrite Hattrs; vm_compute; reflexivity
     |eassumption].
  cbn [links with_links]. rewrite <- !app_assoc. reflexivity.
Qed.

(** ** Creating the stages *)

(** When every stage can be made, [create_elements] reaches the linking
    with all ten elements configured and added. *)
Lemma create_elements_fwd fw cb ud p n out :
  all_stages_made fw ->
  create_elements fw (prepared cb ud p n out) =
  add_and_link_elements fw (verified cb ud p n out).
Proof.
  intros Hall. unfold all_stages_made, stage_chain in Hall.
  repeat (apply Forall_cons_1 in Hall; destruct Hall as [? Hall]).
  cbn [fst snd] in *.
  cbv beta delta [create_elements self_make make].
  rewrite ?H, ?H0, ?H1, ?H2, ?H3, ?H4, ?H5, ?H6, ?H7, ?H8.
  generalize (add_and_link_elements fw). intros AL.
  vm_compute. reflexivity.
Qed.

Ltac dead H := exfalso; vm_compute in H; discriminate H.

(** And it returns only then: a stage that cannot be made makes it raise,
    at once or in [verify_elements]. *)
Lemma create_elements_inv fw cb ud p n out :
  (create_elements fw (prepared cb ud p n out)).1 = Ret tt ->
  all_stages_made fw.
Proof.
  cbv beta delta [create_elements self_make make].
  generalize (add_and_link_elements fw). intros AL.
  destruct (factory_make fw "souphttpsrc" "source") eqn:E1;
    [|intros H; dead H].
  destruct (factory_make fw "jpegdec" "jpeg-decoder") eqn:E2;
  destruct (factory_make fw "videoconvert" "converter") eqn:E3;
  destruct (factory_make fw "videoscale" "scaler") eqn:E4;
  (destruct (factory_make fw "queue" "queue1") eqn:E5;
   destruct (factory_make fw "queue" "queue2") eqn:E6;
   [|intros H; dead H ..]);
  (destruct (factory_make fw "capsfilter" "capsfilter") eqn:E7; [|intros H; dead H]);
  (destruct (factory_make fw "hailonet" "hailonet") eqn:E8; [|intros H; dead H]);
  (destruct (factory_make fw "hailofilter" "hailofilter") eqn:E9; [|intros H; dead H]);
  (destruct (factory_make fw "autovideosink" "sink") eqn:E10; [|intros H; dead H]);
  intros H; try (dead H).
  clear H. unfold all_stages_made, stage_chain.
  repeat (apply Forall_cons_2; [cbn [fst snd]; assumption|]). apply Forall_nil_2.
Qed.

(** ** What a successful [__init__] leaves *)

Lemma init_success_inv fw cb ud name lite n out st' :
  __init__ fw cb ud name lite (initial n out) = (Ret tt, st') ->
  exists rel l,
    py_getitem name (models_for lite) = Some rel /\
    path_exists fw (PosixPath.join (resources_dir fw) rel) = true /\
    all_stages_made fw /\
    st' = assembled cb ud (PosixPath.join (resources_dir fw) rel) n out l.
Proof.
  intros H.
  destruct (py_in name (models_for lite)) eqn:Hin;
    [|rewrite init_unknown in H by exact Hin; discriminate H].
  destruct (py_in_getitem _ _ Hin) as [rel Hrel].
  destruct (path_exists fw (PosixPath.join (resources_dir fw) rel)) eqn:Hex;
    [|rewrite (init_missing _ _ _ _ _ _ _ Hrel Hex) in H; discriminate H].
  rewrite (init_passes _ _ _ _ _ _ _ Hrel Hex), prepared_eq in H.
  exists rel.
  set (p := PosixPath.join (resources_dir fw) rel) in *. clearbody p.
  unfold bind at 1 in H.
  pose proof (create_elements_inv fw cb ud p n out) as Hall.
  destruct (create_elements fw (prepared cb ud p n out)) as [[[]|e|] s] eqn:Hc;
    try discriminate H.
  specialize (Hall eq_refl).
  rewrite (create_elements_fwd _ _ _ _ _ _ Hall) in Hc.
  destruct (links_only_add_and_link fw (verified cb ud p n out)) as [l Hl].
  rewrite Hc in Hl. cbn [snd] in Hl. subst s.
  exists l. split; [exact Hrel|]. split; [exact Hex|]. split; [exact Hall|].
  vm_compute in H. injection H as <-. vm_compute. reflexivity.
Qed.

Lemma init_success fw cb ud name lite n out rel :
  py_getitem name (models_for lite) = Some rel ->
  path_exists fw (PosixPath.join (resources_dir fw) rel) = true ->
  all_stages_made fw ->
  all_links_accepted fw ->
  __init__ fw cb ud name lite (initial n out) =
  (Ret tt,
   assembled cb ud (PosixPath.join (resources_dir fw) rel) n out (neighbours chain_names)).
Proof.
  intros Hrel Hex Hall Hlinks.
  rewrite (init_passes _ _ _ _ _ _ _ Hrel Hex), prepared_eq.
  set (p := PosixPath.join (resources_dir fw) rel) in *. clearbody p.
  unfold bind at 1.
  rewrite (create_elements_fwd _ _ _ _ _ _ Hall).
  rewrite (add_and_link_fwd _ _ Hlinks) by reflexivity.
  vm_compute. reflexivity.
Qed.

Lemma assembled_wired cb ud p n out l : wired (assembled cb ud p n out l).
Proof. split; reflexivity. Qed.

(** C3, as amended.  Given a model name of the selected registry and an
    existing model file, and a framework that makes each of the ten stages
    and accepts each of the nine links, [__init__] returns and leaves a
    pipeline that has not been started, holds exactly the ten stages, and
    is linked pairwise in the order source, JPEG decoder, converter,
    scaler, caps filter, first queue, hailonet, hailofilter, second queue,
    sink. *)
Theorem init_assembles_pipeline fw cb ud model_name is_hailo8l n out rel :
  py_getitem model_name (models_for is_hailo8l) = Some rel ->
  path_exists fw (PosixPath.join (resources_dir fw) rel) = true ->
  all_stages_made fw ->
  all_links_accepted fw ->
  exists st,
    __init__ fw cb ud model_name is_hailo8l (initial n out) = (Ret tt, st) /\
    pstate st = NULL /\
    loop st = None /\
    pipelines st = 1 /\
    children st =
      [ "source"; "jpeg-decoder"; "converter"; "scaler"; "capsfilter";
        "queue1"; "queue2"; "hailonet"; "hailofilter"; "sink" ] /\
    length (children st) = 10 /\
    size (heap st) = 10 /\
    Forall (fun s => el_factory <$> heap st !! s.2 = Some s.1.2) stage_chain /\
    links st = neighbours chain_names /\
    links st =
      [ ("source", "jpeg-decoder"); ("jpeg-decoder", "converter");
        ("converter", "scaler"); ("scaler", "capsfilter");
        ("capsfilter", "queue1"); ("queue1", "hailonet");
        ("hailonet", "hailofilter"); ("hailofilter", "queue2");
        ("queue2", "sink") ].
Proof.
  intros Hrel Hex Hall Hlinks.
  eexists. split; [apply (init_success fw cb ud _ _ n out rel Hrel Hex Hall Hlinks)|].
  generalize (PosixPath.join (resources_dir fw) rel). intros p.
  repeat (split; [reflexivity|]).
  split; [|split; reflexivity].
  unfold stage_chain. repeat (apply Forall_cons_2; [vm_compute; reflexivity|]).
  apply Forall_nil_2.
Qed.

Lemma init_assembles_pipeline_witness :
  py_getitem "yolov5m" (models_for false) = Some "resources/yolov5m_wo_spp.hef" /\
  path_exists fw_ok
    (PosixPath.join (resources_dir fw_ok) "resources/yolov5m_wo_spp.hef") = true /\
  all_stages_made fw_ok /\
  all_links_accepted fw_ok /\
  exists st,
    __init__ fw_ok 1 2 "yolov5m" false (initial 0 []) = (Ret tt, st) /\
    length (children st) = 10 /\
    links st = neighbours chain_names.
Proof.
  assert (Hs : all_stages_made fw_ok).
  { unfold all_stages_made, stage_chain.
    repeat (apply Forall_cons_2; [reflexivity|]). apply Forall_nil_2. }
  assert (Hl : all_links_accepted fw_ok).
  { unfold all_links_accepted.
    change (neighbours chain_names) with
      [ ("source", "jpeg-decoder"); ("jpeg-decoder", "converter");
        ("converter", "scaler"); ("scaler", "capsfilter");
        ("capsfilter", "queue1"); ("queue1", "hailonet");
        ("hailonet", "hailofilter"); ("hailofilter", "queue2");
        ("queue2", "sink") ].
    repeat (apply Forall_cons_2; [reflexivity|]). apply Forall_nil_2. }
  split; [reflexivity|]. split; [reflexivity|]. split; [exact Hs|]. split; [exact Hl|].
  destruct (init_assembles_pipeline fw_ok 1 2 "yolov5m" false 0 []
              "resources/yolov5m_wo_spp.hef" eq_refl eq_refl Hs Hl)
    as [st [Hinit [_ [_ [_ [_ [Hlen [_ [_ [Hlinks _]]]]]]]]]].
  exists st. split; [exact Hinit|]. split; [exact Hlen | exact Hlinks].
Defined.

(** C3 as stated fails: a valid model name and an existing model file do
    not suffice.  Where the framework cannot make the hailonet element,
    [__init__] raises and there is no assembled pipeline. *)
Lemma init_fails_without_hailonet :
  py_getitem "yolov5m" (models_for false) = Some "resources/yolov5m_wo_spp.hef" /\
  path_exists (fw_without "hailonet")
    (PosixPath.join (resources_dir (fw_without "hailonet"))
       "resources/yolov5m_wo_spp.hef") = true /\
  (__init__ (fw_without "hailonet") 1 2 "yolov5m" false (initial 0 [])).1 =
  Raise (Exn RuntimeError
    "Could not create hailonet element. Make sure Hailo GStreamer plugins are installed.").
Proof. split; [reflexivity|]. split; [reflexivity|]. vm_compute. reflexivity. Qed.

(** C4. Whatever the model name and the hardware variant, once [__init__]
    has returned, each of the two queues has max-size-buffers 10,
    max-size-time 0 and max-size-bytes 0, and no other property set. *)
Theorem queues_configured fw cb ud model_name is_hailo8l n out st :
  __init__ fw cb ud model_name is_hailo8l (initial n out) = (Ret tt, st) ->
  forall q, q ∈ ["queue1"; "queue2"] ->
  exists e,
    heap st !! q = Some e /\
    el_factory e = "queue" /\
    el_props e !! "max-size-buffers" = Some (PInt 10) /\
    el_props e !! "max-size-time" = Some (PInt 0) /\
    el_props e !! "max-size-bytes" = Some (PInt 0) /\
    size (el_props e) = 3.
Proof.
  intros Hinit q Hq.
  destruct (init_success_inv _ _ _ _ _ _ _ _ Hinit) as [rel [l [_ [_ [_ ->]]]]].
  generalize (PosixPath.join (resources_dir fw) rel). intros p.
  exists (Element "queue" queue_props).
  split; [|repeat split; vm_compute; reflexivity].
  apply elem_of_cons in Hq as [-> | Hq]; [vm_compute; reflexivity|].
  apply elem_of_cons in Hq as [-> | Hq]; [vm_compute; reflexivity|].
  apply elem_of_nil in Hq. contradiction.
Qed.

Lemma queues_configured_witness :
  __init__ fw_ok 1 2 "yolov8s" true (initial 0 []) =
    (Ret tt, (__init__ fw_ok 1 2 "yolov8s" true (initial 0 [])).2) /\
  exists e,
    heap (__init__ fw_ok 1 2 "yolov8s" true (initial 0 [])).2 !! "queue2" = Some e /\
    el_props e !! "max-size-buffers" = Some (PInt 10) /\
    el_props e !! "max-size-time" = Some (PInt 0) /\
    el_props e !! "max-size-bytes" = Some (PInt 0).
Proof.
  assert (Hinit : __init__ fw_ok 1 2 "yolov8s" true (initial 0 []) =
                  (Ret tt, (__init__ fw_ok 1 2 "yolov8s" true (initial 0 [])).2)).
  { vm_compute. reflexivity. }
  split; [exact Hinit|].
  assert (Hq : "queue2" ∈ ["queue1"; "queue2"]).
  { apply elem_of_cons. right. apply elem_of_cons. left. reflexivity. }
  destruct (queues_configured fw_ok 1 2 "yolov8s" true 0 [] _ Hinit "queue2" Hq)
    as [e [He [_ [Hb [Ht [Hy _]]]]]].
  exists e. split; [exact He|]. split; [exact Hb|]. split; [exact Ht | exact Hy].
Defined.

(** The model path of a constructed "yolov5m" instance, in terms of
    [resources_dir]: it is the hef-path property of the hailonet element,
    whose batch-size is 1. *)
Lemma hailonet_gets_hef_path fw cb ud n out st :
  __init__ fw cb ud "yolov5m" false (initial n out) = (Ret tt, st) ->
  let p := resources_dir fw +:+ "/resources/yolov5m_wo_spp.hef" in
  hef_path st = Some p /\
  exists e,
    heap st !! "hailonet" = Some e /\
    el_factory e = "hailonet" /\
    el_props e !! "hef-path" = Some (PStr p) /\
    el_props e !! "batch-size" = Some (PInt 1).
Proof.
  intros Hinit p.
  destruct (init_success_inv _ _ _ _ _ _ _ _ Hinit) as [rel [l [Hrel [_ [_ ->]]]]].
  injection Hrel as <-.
  rewrite join_resources_dir by reflexivity.
  change (resources_dir fw +:+ "/" +:+ "resources/yolov5m_wo_spp.hef") with p.
  clearbody p.
  split; [reflexivity|].
  exists (Element "hailonet" (list_to_map [ ("hef-path", PStr p); ("batch-size", PInt 1) ])).
  repeat split; vm_compute; reflexivity.
Qed.

(** C9 fails on the code.  For "yolov5m" on the standard variant the
    constructor does not look for [resources/yolov5m_wo_spp.hef] under the
    installation directory.  [resources_dir] is already the directory
    "resources" of the installation, and the registry's path starts with
    "resources/" again, so the path joined from the two names the
    directory twice: [<install>/resources/resources/yolov5m_wo_spp.hef].
    Whenever no file is there the constructor raises "HEF file not found",
    whatever else exists; in the witness below the model file lies at
    [<install>/resources/yolov5m_wo_spp.hef]. *)
Theorem yolov5m_path_names_resources_twice fw cb ud st :
  path_exists fw
    (PosixPath.join (install_dir fw) "resources"
       +:+ "/resources/yolov5m_wo_spp.hef") = false ->
  let r := __init__ fw cb ud "yolov5m" false st in
  r.1 = Raise (Exn RuntimeError
                 ("HEF file not found at "
                    +:+ PosixPath.join (install_dir fw) "resources"
                    +:+ "/resources/yolov5m_wo_spp.hef")) /\
  hef_path r.2 =
    Some (PosixPath.join (install_dir fw) "resources"
            +:+ "/resources/yolov5m_wo_spp.hef") /\
  pipelines r.2 = pipelines st.
Proof.
  intros Hex r. subst r.
  change (PosixPath.join (install_dir fw) "resources") with (resources_dir fw) in *.
  change (resources_dir fw +:+ "/resources/yolov5m_wo_spp.hef")
    with (resources_dir fw +:+ "/" +:+ "resources/yolov5m_wo_spp.hef") in *.
  rewrite <- (join_resources_dir fw "resources/yolov5m_wo_spp.hef" eq_refl) in *.
  rewrite (init_missing fw cb ud "yolov5m" false st "resources/yolov5m_wo_spp.hef"
             eq_refl Hex).
  repeat split.
Qed.

Lemma yolov5m_path_names_resources_twice_witness :
  install_dir fw_flat = "/opt/app" /\
  path_exists fw_flat "/opt/app/resources/yolov5m_wo_spp.hef" = true /\
  path_exists fw_flat
    (PosixPath.join (install_dir fw_flat) "resources"
       +:+ "/resources/yolov5m_wo_spp.hef") = false /\
  (__init__ fw_flat 1 2 "yolov5m" false (initial 0 [])).1 =
    Raise (Exn RuntimeError
             "HEF file not found at /opt/app/resources/resources/yolov5m_wo_spp.hef") /\
  hef_path (__init__ fw_flat 1 2 "yolov5m" false (initial 0 [])).2 =
    Some "/opt/app/resources/resources/yolov5m_wo_spp.hef".
Proof.
  assert (Hex : path_exists fw_flat
                  (PosixPath.join (install_dir fw_flat) "resources"
                     +:+ "/resources/yolov5m_wo_spp.hef") = false).
  { reflexivity. }
  pose proof (yolov5m_path_names_resources_twice fw_flat 1 2 (initial 0 []) Hex) as H.
  cbv zeta in H. destruct H as [Hraise [Hpath _]].
  split; [reflexivity|]. split; [reflexivity|]. split; [exact Hex|].
  split; [exact Hraise | exact Hpath].
Defined.

(** C5 fails on the code.  Only for hailonet and hailofilter does a stage
    that cannot be made end in a RuntimeError that names it.  For the JPEG
    decoder, the converter and the scaler, [verify_elements] raises
    RuntimeError "Could not create None": the message is formatted from
    the element, which is None.  For the source, the queues, the caps
    filter and the sink a property is set on None before any check, and
    the constructor ends in AttributeError. *)
Theorem unmade_stage_errors :
  Forall
    (fun name =>
       (__init__ (fw_without name) 1 2 "yolov5m" false (initial 0 [])).1 =
       Raise (Exn RuntimeError "Could not create None"))
    [ "jpeg-decoder"; "converter"; "scaler" ] /\
  Forall
    (fun name =>
       (__init__ (fw_without name) 1 2 "yolov5m" false (initial 0 [])).1 =
       Raise (Exn AttributeError "'NoneType' object has no attribute 'set_property'"))
    [ "source"; "queue1"; "queue2"; "capsfilter"; "sink" ] /\
  Forall
    (fun name =>
       (__init__ (fw_without name) 1 2 "yolov5m" false (initial 0 [])).1 =
       Raise (Exn RuntimeError
         ("Could not create " +:+ name
            +:+ " element. Make sure Hailo GStreamer plugins are installed.")))
    [ "hailonet"; "hailofilter" ].
Proof.
  repeat split;
    repeat (apply Forall_cons_2; [vm_compute; reflexivity|]); apply Forall_nil_2.
Qed.

(** ** [cleanup] *)

Lemma cleanup_eq fw st :
  cleanup fw st =
  (Ret tt,
   with_loop (match loop st with Some true => Some false | other => other end)
     (with_pstate NULL (with_stdout (stdout st ++ [cleanup_line]) st))).
Proof.
  unfold cleanup, print, pipeline_set_state, loop_quit, bind, modify, get, ret.
  destruct st as [? ? ? ? ? ? ? ? ? ? ? ? ? ? ? lp].
  destruct lp as [[|]|]; reflexivity.
Qed.

(** C7. [cleanup] returns in every state, without raising: with the loop
    attribute absent, with a loop that is not running, on a pipeline
    already in state NULL.  It leaves the pipeline in state NULL; it stops
    the loop when there is one and it is running, and leaves the loop
    attribute as it was otherwise.  A second call returns as well and
    changes nothing but the console, where each call prints its line; and
    on a pipeline already stopped the first call changes nothing else
    either. *)
Theorem cleanup_idempotent fw st :
  let s1 := (cleanup fw st).2 in
  let s2 := (cleanup fw s1).2 in
  (cleanup fw st).1 = Ret tt /\
  (cleanup fw s1).1 = Ret tt /\
  pstate s1 = NULL /\
  loop s1 = match loop st with Some true => Some false | other => other end /\
  with_loop (loop st) (with_pstate (pstate st) (quiet s1)) = quiet st /\
  quiet s2 = quiet s1 /\
  stdout s2 = (stdout st ++ [cleanup_line; cleanup_line])%list /\
  (pstate st = NULL -> loop st <> Some true -> quiet s1 = quiet st).
Proof.
  intros s1 s2. subst s2 s1. rewrite !cleanup_eq.
  destruct st as [? ? ? ? ? ? ? ? ? ps ? ? ? ? ? lp].
  cbn [fst snd loop pstate stdout with_loop with_pstate with_stdout quiet
       gst_inits pipelines heap callback_function user_data hef_path attrs caps
       children links probes bus_watch bus_handlers].
  repeat split.
  - destruct lp as [[|]|]; reflexivity.
  - rewrite <- app_assoc. reflexivity.
  - intros -> Hlp. destruct lp as [[|]|]; [contradiction Hlp|..]; reflexivity.
Qed.

(** ** The main loop *)

Lemma first_exit_not_buffer evs ev : first_exit evs = Some ev -> ev <> EvBuffer.
Proof.
  induction evs as [|e evs IH]; simpl; [discriminate|].
  destruct e; try (intros [= <-]; discriminate). exact IH.
Qed.

Lemma first_exit_single ev : ev <> EvBuffer -> first_exit [ev] = Some ev.
Proof. intros H. destruct ev; [contradiction H; reflexivity|reflexivity ..]. Qed.

(** Whatever ends the loop leaves it stopped, when the handlers of
    [__init__] are connected. *)
Lemma dispatch_stops fw ev st :
  wired st -> loop st = Some true -> ev <> EvBuffer ->
  match dispatch fw ev st with
  | (Ret _, s) => loop s = Some false
  | _ => True
  end.
Proof.
  intros [Hw Hh] Hl Hev. destruct st; cbn [bus_watch bus_handlers loop] in *; subst.
  destruct ev as [|[m d|]| |e]; [contradiction Hev; reflexivity|..].
  all: vm_compute; try reflexivity; exact I.
Qed.

Lemma iterate_first_exit fw evs ev st :
  wired st -> loop st = Some true -> first_exit evs = Some ev ->
  iterate fw evs st = dispatch fw ev st.
Proof.
  intros Hw Hl. induction evs as [|e evs IH]; simpl; [discriminate|].
  intros Hfe.
  assert (Hstop : forall e', e' <> EvBuffer ->
    (dispatch fw e' ;;
     st0 <- get ;;
     match loop st0 with Some true => iterate fw evs | _ => ret tt end) st
    = dispatch fw e' st).
  { intros e' He'. pose proof (dispatch_stops fw e' st Hw Hl He') as Hd.
    unfold bind at 1. destruct (dispatch fw e' st) as [[[]|x|] s]; try reflexivity.
    unfold bind, get. rewrite Hd. reflexivity. }
  destruct e.
  - unfold bind, dispatch, ret, get. rewrite Hl. apply IH. exact Hfe.
  - injection Hfe as <-. apply Hstop. discriminate.
  - injection Hfe as <-. apply Hstop. discriminate.
  - injection Hfe as <-. apply Hstop. discriminate.
Qed.

Lemma iterate_no_exit fw evs st :
  loop st = Some true -> first_exit evs = None -> iterate fw evs st = (Hang, st).
Proof.
  intros Hl. induction evs as [|e evs IH]; simpl; [reflexivity|].
  destruct e; try discriminate. intros Hfe.
  unfold bind, dispatch, ret, get. rewrite Hl. apply IH. exact Hfe.
Qed.

(** ** [run] *)

Lemma run_unfold fw evs st :
  run fw evs st =
  match playing_result fw with
  | FAILURE =>
      (Raise (Exn RuntimeError "Unable to set the pipeline to the playing state"), st)
  | _ =>
      try_finally
        (try_except (fun s => iterate fw evs (with_loop (Some true) s))
           (fun e => print ("Pipeline error: " +:+ exn_msg e) ;; raise e))
        (cleanup fw)
        (with_loop (Some false) (with_pstate PLAYING st))
  end.
Proof.
  unfold run, pipeline_set_state. destruct (playing_result fw); reflexivity.
Qed.

(** Only the first event that is not a buffer matters. *)
Lemma run_first_exit fw evs ev st :
  wired st -> first_exit evs = Some ev -> run fw evs st = run fw [ev] st.
Proof.
  intros Hw Hfe.
  pose proof (first_exit_not_buffer _ _ Hfe) as Hev.
  rewrite !run_unfold. unfold try_finally, try_except.
  rewrite (iterate_first_exit fw evs ev) by (try exact Hfe; try reflexivity; exact Hw).
  rewrite (iterate_first_exit fw [ev] ev) by
    (try (apply first_exit_single; exact Hev); try reflexivity; exact Hw).
  reflexivity.
Qed.

(** While only buffers arrive, [run] does not come back. *)
Lemma run_no_exit fw evs st :
  playing_result fw <> FAILURE -> first_exit evs = None -> (run fw evs st).1 = Hang.
Proof.
  intros Hp Hfe. rewrite run_unfold. unfold try_finally, try_except.
  rewrite (iterate_no_exit fw evs) by (try exact Hfe; reflexivity).
  destruct (playing_result fw); [contradiction Hp; reflexivity|reflexivity ..].
Qed.

Lemma run_single fw ev st :
  wired st -> playing_result fw <> FAILURE -> ev <> EvBuffer ->
  run fw [ev] st = (run_outcome ev, stopped (run_output ev) st).
Proof.
  intros [Hw Hh] Hp Hev. rewrite run_unfold.
  destruct (playing_result fw) eqn:Hr; [contradiction Hp; reflexivity|..].
  all: destruct st; cbn [bus_watch bus_handlers] in Hw, Hh; subst.
  all: destruct ev as [|[m d|]| |[c msg]]; [contradiction Hev; reflexivity|..].
  all: try (destruct c).
  all: cbv -[app]; rewrite <- ?app_assoc; reflexivity.
Qed.

Lemma run_exit fw evs ev st :
  wired st -> playing_result fw <> FAILURE -> first_exit evs = Some ev ->
  run fw evs st = (run_outcome ev, stopped (run_output ev) st).
Proof.
  intros Hw Hp Hfe. rewrite (run_first_exit fw evs ev st Hw Hfe).
  apply run_single; [exact Hw | exact Hp | exact (first_exit_not_buffer _ _ Hfe)].
Qed.

Lemma count_run_output ev :
  ev <> EvBuffer ->
  length (List.filter (String.eqb cleanup_line) (run_output ev)) = exit_cleanups ev.
Proof.
  intros Hev. destruct ev as [|[m d|]| |[c msg]]; [contradiction Hev; reflexivity|..].
  all: try (destruct c).
  all: reflexivity.
Qed.

Lemma cleanup_calls_stopped lines st :
  cleanup_calls (stopped lines st) =
  cleanup_calls st + length (List.filter (String.eqb cleanup_line) lines).
Proof.
  unfold cleanup_calls, stopped.
  cbn [stdout with_loop with_pstate with_stdout].
  rewrite List.filter_app, length_app. reflexivity.
Qed.

Lemma init_wired fw cb ud name lite n out st :
  __init__ fw cb ud name lite (initial n out) = (Ret tt, st) -> wired st.
Proof.
  intros Hinit.
  destruct (init_success_inv _ _ _ _ _ _ _ _ Hinit) as [rel [l [_ [_ [_ ->]]]]].
  apply assembled_wired.
Qed.

(** C6, as amended.  On a constructed instance whose pipeline starts
    playing, let [ev] be the event that ends the loop: the first one that
    is not a buffer.  Then [run] comes back (it returns, or re-raises what
    the loop raised) with the pipeline in state NULL, and [cleanup] has
    been called at least once: exactly once, by the [finally] block, when
    the loop was quit from outside or raised; exactly twice when a bus
    message ended it, once by the handler ([on_error] or [on_eos]) and
    once by the [finally] block. *)
Theorem run_cleanup_calls fw cb ud model_name is_hailo8l n out st evs ev :
  __init__ fw cb ud model_name is_hailo8l (initial n out) = (Ret tt, st) ->
  playing_result fw <> FAILURE ->
  first_exit evs = Some ev ->
  (run fw evs st).1 = match ev with EvRaise e => Raise e | _ => Ret tt end /\
  cleanup_calls (run fw evs st).2 =
    cleanup_calls st + match ev with EvBus _ => 2 | _ => 1 end /\
  pstate (run fw evs st).2 = NULL.
Proof.
  intros Hinit Hp Hfe.
  rewrite (run_exit fw evs ev st (init_wired _ _ _ _ _ _ _ _ Hinit) Hp Hfe).
  cbn [fst snd]. split; [reflexivity|]. split; [|reflexivity].
  rewrite cleanup_calls_stopped.
  rewrite (count_run_output ev (first_exit_not_buffer _ _ Hfe)). reflexivity.
Qed.

Lemma run_cleanup_calls_witness :
  __init__ fw_ok 1 2 "yolov5m" false (initial 0 []) = (Ret tt, app_ok) /\
  playing_result fw_ok <> FAILURE /\
  first_exit [EvBuffer; EvBuffer; EvQuit; EvBuffer] = Some EvQuit /\
  (run fw_ok [EvBuffer; EvBuffer; EvQuit; EvBuffer] app_ok).1 = Ret tt /\
  cleanup_calls (run fw_ok [EvBuffer; EvBuffer; EvQuit; EvBuffer] app_ok).2 =
    cleanup_calls app_ok + 1.
Proof.
  assert (Hinit : __init__ fw_ok 1 2 "yolov5m" false (initial 0 []) = (Ret tt, app_ok)).
  { vm_compute. reflexivity. }
  assert (Hp : playing_result fw_ok <> FAILURE) by discriminate.
  split; [exact Hinit|]. split; [exact Hp|]. split; [reflexivity|].
  destruct (run_cleanup_calls fw_ok 1 2 "yolov5m" false 0 [] app_ok
              [EvBuffer; EvBuffer; EvQuit; EvBuffer] EvQuit Hinit Hp eq_refl)
    as [Hout [Hcalls _]].
  split; [exact Hout | exact Hcalls].
Defined.

(** C6 as stated fails: when an error message on the bus ends the loop,
    [cleanup] runs twice, in [on_error] and in the [finally] block of
    [run]. *)
Lemma run_bus_error_cleans_up_twice :
  (run fw_ok [EvBus (ErrorMessage "boom" "debug")] app_ok).1 = Ret tt /\
  cleanup_calls app_ok = 0 /\
  cleanup_calls (run fw_ok [EvBus (ErrorMessage "boom" "debug")] app_ok).2 = 2 /\
  stdout (run fw_ok [EvBus (ErrorMessage "boom" "debug")] app_ok).2 =
    [ "Pipeline error: boom"; "Debug info: debug";
      "Cleaning up pipeline..."; "Cleaning up pipeline..." ].
Proof. repeat split; vm_compute; reflexivity. Qed.

(** C8. On a constructed instance whose pipeline starts playing, when the
    first event that is not a buffer is a message on the bus, an error or
    an end of stream, [run] returns, it does not raise, and the pipeline
    is in state NULL with the loop stopped. *)
Theorem run_returns_on_bus_message fw cb ud model_name is_hailo8l n out st evs msg :
  __init__ fw cb ud model_name is_hailo8l (initial n out) = (Ret tt, st) ->
  playing_result fw <> FAILURE ->
  first_exit evs = Some (EvBus msg) ->
  pstate (pipeline_set_state fw PLAYING st).2 = PLAYING /\
  (run fw evs st).1 = Ret tt /\
  pstate (run fw evs st).2 = NULL /\
  loop (run fw evs st).2 = Some false.
Proof.
  intros Hinit Hp Hfe. split.
  - unfold pipeline_set_state.
    destruct (playing_result fw); [contradiction Hp; reflexivity|reflexivity ..].
  - rewrite (run_exit fw evs _ st (init_wired _ _ _ _ _ _ _ _ Hinit) Hp Hfe).
    repeat split.
Qed.

Lemma run_returns_on_bus_message_witness :
  __init__ fw_ok 1 2 "yolov5m" false (initial 0 []) = (Ret tt, app_ok) /\
  playing_result fw_ok <> FAILURE /\
  first_exit [EvBuffer; EvBus EosMessage; EvBuffer] = Some (EvBus EosMessage) /\
  (run fw_ok [EvBuffer; EvBus EosMessage; EvBuffer] app_ok).1 = Ret tt /\
  pstate (run fw_ok [EvBuffer; EvBus EosMessage; EvBuffer] app_ok).2 = NULL.
Proof.
  assert (Hinit : __init__ fw_ok 1 2 "yolov5m" false (initial 0 []) = (Ret tt, app_ok)).
  { vm_compute. reflexivity. }
  assert (Hp : playing_result fw_ok <> FAILURE) by discriminate.
  split; [exact Hinit|]. split; [exact Hp|]. split; [reflexivity|].
  destruct (run_returns_on_bus_message fw_ok 1 2 "yolov5m" false 0 [] app_ok
              [EvBuffer; EvBus EosMessage; EvBuffer] EosMessage Hinit Hp eq_refl)
    as [_ [Hout [Hnull _]]].
  split; [exact Hout | exact Hnull].
Defined.

(** * Further properties *)

(** ** Linking, link by link *)

Lemma self_link_step fw a b x y st :
  attrs st !! a = Some (Some x) ->
  attrs st !! b = Some (Some y) ->
  self_link fw a b st =
  match link_result fw x y with
  | LinkOk => (Ret tt, with_links (links st ++ [(x, y)]) st)
  | LinkRefused => (Ret tt, st)
  | LinkRaises e => (Raise e, st)
  end.
Proof.
  intros Ha Hb. unfold self_link, getattr, bind, get, link.
  rewrite Ha. cbn [ret attrs]. rewrite Hb. cbn [ret].
  destruct (link_result fw x y); reflexivity.
Qed.

Lemma with_links_app_nil st : with_links (links st ++ []) st = st.
Proof. rewrite app_nil_r. symmetry. apply with_links_same. Qed.

(** When no link raises, the loop over the pairs returns and has added the
    accepted links, in order. *)
Lemma for_each_links_return fw aps eps st :
  resolves (attrs st) aps eps ->
  Forall (fun ep => ~ link_raises fw ep) eps ->
  for_each aps (fun ap => self_link fw ap.1 ap.2) st =
  (Ret tt, with_links (links st ++ List.filter (link_accepted fw) eps) st).
Proof.
  intros Hres. remember (attrs st) as A eqn:HA. revert st HA.
  induction Hres as [|ap ep aps eps [Ha Hb] _ IH]; intros st HA Hno.
  - cbn [for_each List.filter]. unfold ret. rewrite with_links_app_nil. reflexivity.
  - apply Forall_cons_1 in Hno as [Hep Hno]. subst A.
    cbn [for_each List.filter]. unfold bind.
    rewrite (self_link_step fw _ _ _ _ st Ha Hb).
    unfold link_accepted at 1.
    destruct (link_result fw ep.1 ep.2) as [| |e] eqn:E.
    + rewrite (IH (with_links (links st ++ [(ep.1, ep.2)]) st) eq_refl Hno).
      cbn [links with_links]. rewrite <- app_assoc. destruct ep; reflexivity.
    + rewrite (IH st eq_refl Hno). reflexivity.
    + exfalso. apply Hep. exists e. exact E.
Qed.

(** The first link that raises ends the loop; the links accepted before it
    stay. *)
Lemma for_each_links_raise fw aps eps ap ep aps' st e :
  resolves (attrs st) aps eps ->
  Forall (fun ep => ~ link_raises fw ep) eps ->
  attrs st !! ap.1 = Some (Some ep.1) ->
  attrs st !! ap.2 = Some (Some ep.2) ->
  link_result fw ep.1 ep.2 = LinkRaises e ->
  for_each (aps ++ ap :: aps') (fun ap => self_link fw ap.1 ap.2) st =
  (Raise e, with_links (links st ++ List.filter (link_accepted fw) eps) st).
Proof.
  intros Hres. remember (attrs st) as A eqn:HA. revert st HA.
  induction Hres as [|ap0 ep0 aps eps [Ha Hb] _ IH]; intros st HA Hno Hx Hy He.
  - subst A. cbn [app for_each List.filter]. unfold bind.
    rewrite (self_link_step fw _ _ _ _ st Hx Hy), He.
    rewrite with_links_app_nil. reflexivity.
  - apply Forall_cons_1 in Hno as [Hep Hno]. subst A.
    cbn [app for_each List.filter]. unfold bind at 1.
    rewrite (self_link_step fw _ _ _ _ st Ha Hb).
    unfold link_accepted at 1.
    destruct (link_result fw ep0.1 ep0.2) as [| |e0] eqn:E.
    + rewrite (IH (with_links (links st ++ [(ep0.1, ep0.2)]) st) eq_refl Hno Hx Hy He).
      cbn [links with_links]. rewrite <- app_assoc. destruct ep0; reflexivity.
    + rewrite (IH st eq_refl Hno Hx Hy He). reflexivity.
    + exfalso. apply Hep. exists e0. exact E.
Qed.

(** And the loop returns only when no link raises. *)
Lemma for_each_links_inv fw aps eps st :
  resolves (attrs st) aps eps ->
  (for_each aps (fun ap => self_link fw ap.1 ap.2) st).1 = Ret tt ->
  Forall (fun ep => ~ link_raises fw ep) eps.
Proof.
  intros Hres. remember (attrs st) as A eqn:HA. revert st HA.
  induction Hres as [|ap ep aps eps [Ha Hb] _ IH]; intros st HA Hret.
  - apply Forall_nil_2.
  - subst A. cbn [for_each] in Hret. unfold bind in Hret.
    rewrite (self_link_step fw _ _ _ _ st Ha Hb) in Hret.
    destruct (link_result fw ep.1 ep.2) as [| |e] eqn:E.
    + apply Forall_cons_2; [intros [e' He']; congruence|].
      apply (IH (with_links (links st ++ [(ep.1, ep.2)]) st) eq_refl Hret).
    + apply Forall_cons_2; [intros [e' He']; congruence|].
      apply (IH st eq_refl Hret).
    + discriminate Hret.
Qed.

Lemma bind_congr {A B} (m : M A) (k k' : A -> M B) st :
  (forall a s, k a s = k' a s) -> bind m k st = bind m k' st.
Proof. intros H. unfold bind. destruct (m st) as [[a|e|] s]; [apply H|reflexivity..]. Qed.

Lemma bind_ret_tt (m : M unit) st : m st = bind m (fun _ => ret tt) st.
Proof. unfold bind, ret. destruct (m st) as [[[]|e|] s]; reflexivity. Qed.

(** The nine statements of [add_and_link_elements] are the loop over
    [link_attrs]. *)
Lemma add_and_link_as_loop fw st :
  add_and_link_elements fw st =
  try_except (for_each link_attrs (fun ap => self_link fw ap.1 ap.2))
    (fun e => raise (Exn RuntimeError ("Failed to link elements: " +:+ exn_msg e))) st.
Proof.
  unfold add_and_link_elements, try_except.
  match goal with
  | |- match ?a with _ => _ end = match ?b with _ => _ end =>
      assert (Heq : a = b); [|rewrite Heq; reflexivity]
  end.
  change link_attrs with
    [ ("src", "jpegdec"); ("jpegdec", "videoconvert"); ("videoconvert", "videoscale");
      ("videoscale", "capsfilter"); ("capsfilter", "queue1"); ("queue1", "hailonet");
      ("hailonet", "hailofilter"); ("hailofilter", "queue2"); ("queue2", "sink") ].
  cbn [for_each fst snd].
  do 8 (apply bind_congr; clear st; intros _ st).
  apply bind_ret_tt.
Qed.

Lemma assembled_resolves :
  resolves assembled_attrs link_attrs (neighbours chain_names).
Proof.
  unfold resolves.
  change link_attrs with
    [ ("src", "jpegdec"); ("jpegdec", "videoconvert"); ("videoconvert", "videoscale");
      ("videoscale", "capsfilter"); ("capsfilter", "queue1"); ("queue1", "hailonet");
      ("hailonet", "hailofilter"); ("hailofilter", "queue2"); ("queue2", "sink") ].
  change (neighbours chain_names) with
    [ ("source", "jpeg-decoder"); ("jpeg-decoder", "converter");
      ("converter", "scaler"); ("scaler", "capsfilter");
      ("capsfilter", "queue1"); ("queue1", "hailonet");
      ("hailonet", "hailofilter"); ("hailofilter", "queue2");
      ("queue2", "sink") ].
  repeat (apply Forall2_cons_2; [split; vm_compute; reflexivity|]).
  apply Forall2_nil_2.
Qed.

(** ** [__init__] once the stages are made *)

Lemma init_after_stages fw cb ud name lite n out rel :
  py_getitem name (models_for lite) = Some rel ->
  path_exists fw (PosixPath.join (resources_dir fw) rel) = true ->
  all_stages_made fw ->
  let p := PosixPath.join (resources_dir fw) rel in
  let r := add_and_link_elements fw (verified cb ud p n out) in
  __init__ fw cb ud name lite (initial n out) =
  match r.1 with
  | Ret _ => (Ret tt, assembled cb ud p n out (links r.2))
  | Raise e => (Raise e, r.2)
  | Hang => (Hang, r.2)
  end.
Proof.
  intros Hrel Hex Hall p r. subst r.
  rewrite (init_passes _ _ _ _ _ _ _ Hrel Hex), prepared_eq.
  fold p. clearbody p.
  unfold bind at 1.
  rewrite (create_elements_fwd _ _ _ _ _ _ Hall).
  destruct (links_only_add_and_link fw (verified cb ud p n out)) as [l Hl].
  destruct (add_and_link_elements fw (verified cb ud p n out)) as [[[]|e|] s];
    cbn [fst snd] in *; subst s; [|reflexivity..].
  vm_compute. reflexivity.
Qed.

Lemma add_and_link_return fw st :
  attrs st = assembled_attrs ->
  no_link_raises fw ->
  add_and_link_elements fw st =
  (Ret tt, with_links (links st ++ accepted_links fw) st).
Proof.
  intros Hattrs Hno. rewrite add_and_link_as_loop. unfold try_except.
  rewrite (for_each_links_return fw link_attrs (neighbours chain_names) st);
    [reflexivity | rewrite Hattrs; exact assembled_resolves | exact Hno].
Qed.

Lemma init_returns fw cb ud name lite n out rel :
  py_getitem name (models_for lite) = Some rel ->
  path_exists fw (PosixPath.join (resources_dir fw) rel) = true ->
  all_stages_made fw ->
  no_link_raises fw ->
  __init__ fw cb ud name lite (initial n out) =
  (Ret tt,
   assembled cb ud (PosixPath.join (resources_dir fw) rel) n out (accepted_links fw)).
Proof.
  intros Hrel Hex Hall Hno.
  pose proof (init_after_stages fw cb ud _ _ n out rel Hrel Hex Hall) as H.
  cbv zeta in H. rewrite H.
  rewrite (add_and_link_return fw (verified cb ud _ n out) eq_refl Hno). reflexivity.
Qed.

(** X4. A link the framework refuses ([link] returns False) goes
    unnoticed: when every stage is made and no link raises, [__init__]
    returns with all ten stages in the pipeline, and the links of the
    pipeline are exactly those of the nine that the framework accepted. *)
Theorem init_ignores_refused_links fw cb ud model_name is_hailo8l n out rel :
  py_getitem model_name (models_for is_hailo8l) = Some rel ->
  path_exists fw (PosixPath.join (resources_dir fw) rel) = true ->
  all_stages_made fw ->
  no_link_raises fw ->
  exists st,
    __init__ fw cb ud model_name is_hailo8l (initial n out) = (Ret tt, st) /\
    length (children st) = 10 /\
    links st = accepted_links fw /\
    forall ab, ab ∈ links st <->
      ab ∈ neighbours chain_names /\ link_result fw ab.1 ab.2 = LinkOk.
Proof.
  intros Hrel Hex Hall Hno.
  eexists. split; [apply (init_returns fw cb ud _ _ n out rel Hrel Hex Hall Hno)|].
  split; [reflexivity|]. split; [reflexivity|].
  intros ab. cbn [links assembled]. unfold accepted_links.
  rewrite list_elem_of_In, List.filter_In, <- list_elem_of_In.
  unfold link_accepted. destruct (link_result fw ab.1 ab.2); split; intros [H1 H2];
    split; try assumption; try reflexivity; discriminate.
Qed.

(** X5. When a link raises, [__init__] raises in its place RuntimeError
    "Failed to link elements: " followed by the text of what was raised
    (what is not an Exception, as KeyboardInterrupt, goes through as it
    is).  Nothing is undone: the ten stages stay in the pipeline with the
    links accepted before, Gst.init and the pipeline are done, and neither
    the probe nor a bus handler is registered. *)
Theorem init_wraps_link_error fw cb ud model_name is_hailo8l n out rel pre ab post e :
  py_getitem model_name (models_for is_hailo8l) = Some rel ->
  path_exists fw (PosixPath.join (resources_dir fw) rel) = true ->
  all_stages_made fw ->
  neighbours chain_names = (pre ++ ab :: post)%list ->
  Forall (fun ep => ~ link_raises fw ep) pre ->
  link_result fw ab.1 ab.2 = LinkRaises e ->
  let r := __init__ fw cb ud model_name is_hailo8l (initial n out) in
  r.1 = Raise (if is_Exception (exn_cls e)
               then Exn RuntimeError ("Failed to link elements: " +:+ exn_msg e)
               else e) /\
  links r.2 = List.filter (link_accepted fw) pre /\
  length (children r.2) = 10 /\
  counts r.2 = (S n, 1) /\
  probes r.2 = [] /\
  bus_handlers r.2 = [].
Proof.
  intros Hrel Hex Hall Hsplit Hpre He r. subst r.
  pose proof (init_after_stages fw cb ud _ _ n out rel Hrel Hex Hall) as H.
  cbv zeta in H. rewrite H. clear H.
  generalize (PosixPath.join (resources_dir fw) rel). intros p.
  pose proof assembled_resolves as Hres. unfold resolves in Hres.
  rewrite Hsplit in Hres.
  apply Forall2_app_inv_r in Hres as (apre & arest & Hrpre & Hrrest & Hattrs).
  apply Forall2_cons_inv_r in Hrrest as (ap & apost & [Hx Hy] & _ & ->).
  rewrite add_and_link_as_loop. unfold try_except.
  rewrite Hattrs.
  rewrite (for_each_links_raise fw apre pre ap ab apost (verified cb ud p n out) e
             Hrpre Hpre Hx Hy He).
  destruct (is_Exception (exn_cls e)); repeat split.
Qed.

(** X6. [__init__] returns exactly when the model name is in the selected
    registry, its file exists, the framework makes each of the ten stages
    and no link raises. *)
Theorem init_returns_iff fw cb ud model_name is_hailo8l n out :
  (__init__ fw cb ud model_name is_hailo8l (initial n out)).1 = Ret tt <->
  (exists rel,
     py_getitem model_name (models_for is_hailo8l) = Some rel /\
     path_exists fw (PosixPath.join (resources_dir fw) rel) = true) /\
  all_stages_made fw /\
  no_link_raises fw.
Proof.
  split.
  - intros Hret.
    destruct (__init__ fw cb ud model_name is_hailo8l (initial n out)) as [o st] eqn:Hinit.
    cbn [fst] in Hret. subst o.
    destruct (init_success_inv _ _ _ _ _ _ _ _ Hinit) as [rel [l [Hrel [Hex [Hall _]]]]].
    split; [exists rel; split; assumption|]. split; [exact Hall|].
    pose proof (init_after_stages fw cb ud _ _ n out rel Hrel Hex Hall) as H.
    cbv zeta in H. rewrite Hinit in H.
    revert H. generalize (PosixPath.join (resources_dir fw) rel). intros p H.
    apply (for_each_links_inv fw link_attrs (neighbours chain_names)
             (verified cb ud p n out) assembled_resolves).
    rewrite add_and_link_as_loop in H. unfold try_except in H.
    destruct (for_each link_attrs (fun ap => self_link fw ap.1 ap.2)
                (verified cb ud p n out)) as [[[]|e|] s]; [reflexivity|..].
    + exfalso. destruct (is_Exception (exn_cls e)); discriminate H.
    + discriminate H.
  - intros [[rel [Hrel Hex]] [Hall Hno]].
    rewrite (init_returns fw cb ud _ _ n out rel Hrel Hex Hall Hno).
    reflexivity.
Qed.

(** ** What construction never touches *)

Lemma keeps_ret {A B} (f : state -> B) (a : A) : keeps f (ret a).
Proof. intros st. reflexivity. Qed.

Lemma keeps_raise {A B} (f : state -> B) e : keeps f (@raise A e).
Proof. intros st. reflexivity. Qed.

Lemma keeps_get {B} (f : state -> B) : keeps f get.
Proof. intros st. reflexivity. Qed.

Lemma keeps_modify {B} (f : state -> B) g :
  (forall st, f (g st) = f st) -> keeps f (modify g).
Proof. intros H st. apply H. Qed.

Lemma keeps_bind {A B C} (f : state -> C) (m : M A) (k : A -> M B) :
  keeps f m -> (forall a, keeps f (k a)) -> keeps f (bind m k).
Proof.
  intros Hm Hk st. unfold bind. specialize (Hm st).
  destruct (m st) as [[a|e|] s]; cbn [snd] in *; [|exact Hm..].
  rewrite (Hk a s). exact Hm.
Qed.

Lemma keeps_try_except {A C} (f : state -> C) (m : M A) h :
  keeps f m -> (forall e, keeps f (h e)) -> keeps f (try_except m h).
Proof.
  intros Hm Hh st. unfold try_except. specialize (Hm st).
  destruct (m st) as [[a|e|] s]; cbn [snd] in *; [exact Hm| |exact Hm].
  destruct (is_Exception (exn_cls e)); [|exact Hm].
  rewrite (Hh e s). exact Hm.
Qed.

Lemma keeps_for_each {A C} (f : state -> C) (l : list A) body :
  (forall x, keeps f (body x)) -> keeps f (for_each l body).
Proof.
  intros Hb. induction l as [|x l IH]; cbn [for_each].
  - apply keeps_ret.
  - apply keeps_bind; [apply Hb | intros _; exact IH].
Qed.

Lemma keeps_map_m {A B C} (f : state -> C) (g : A -> M B) (l : list A) :
  (forall x, keeps f (g x)) -> keeps f (map_m g l).
Proof.
  intros Hg. induction l as [|x l IH]; cbn [map_m].
  - apply keeps_ret.
  - apply keeps_bind; [apply Hg | intros y].
    apply keeps_bind; [exact IH | intros ys; apply keeps_ret].
Qed.

Create HintDb counts_frame.

#[local] Hint Resolve keeps_ret keeps_raise keeps_get : counts_frame.
#[local] Hint Extern 1 (keeps _ (modify _)) =>
  apply keeps_modify; intro; reflexivity : counts_frame.
#[local] Hint Extern 2 (keeps _ (bind _ _)) =>
  apply keeps_bind; [|intro] : counts_frame.
#[local] Hint Extern 2 (keeps _ (try_except _ _)) =>
  apply keeps_try_except; [|intro] : counts_frame.
#[local] Hint Extern 2 (keeps _ (for_each _ _)) =>
  apply keeps_for_each; intro : counts_frame.
#[local] Hint Extern 2 (keeps _ (map_m _ _)) =>
  apply keeps_map_m; intro : counts_frame.
#[local] Hint Extern 3 (keeps _ (match ?x with _ => _ end)) =>
  destruct x : counts_frame.

Lemma keeps_counts_getattr a : keeps counts (getattr a).
Proof. unfold getattr. apply keeps_bind; [apply keeps_get|intros st]. auto with counts_frame. Qed.

Lemma keeps_counts_setattr a v : keeps counts (setattr a v).
Proof. unfold setattr. auto with counts_frame. Qed.

Lemma keeps_counts_get_hef_path : keeps counts get_hef_path.
Proof. unfold get_hef_path. apply keeps_bind; [apply keeps_get|intros st]. auto with counts_frame. Qed.

Lemma keeps_counts_get_caps : keeps counts get_caps.
Proof. unfold get_caps. apply keeps_bind; [apply keeps_get|intros st]. auto with counts_frame. Qed.

Lemma keeps_counts_set_property h k v : keeps counts (set_property h k v).
Proof. unfold set_property. auto with counts_frame. Qed.

Lemma keeps_counts_pipeline_add n : keeps counts (pipeline_add n).
Proof. unfold pipeline_add. auto with counts_frame. Qed.

Lemma keeps_counts_make fw f n : keeps counts (make fw f n).
Proof. unfold make. auto with counts_frame. Qed.

Lemma keeps_counts_link fw a b : keeps counts (link fw a b).
Proof.
  unfold link. destruct a as [x|]; [destruct b as [y|]|]; auto with counts_frame.
Qed.

Lemma keeps_counts_get_static_pad h pad : keeps counts (get_static_pad h pad).
Proof. unfold get_static_pad. auto with counts_frame. Qed.

Lemma keeps_counts_add_probe pad : keeps counts (add_probe pad).
Proof.
  unfold add_probe. apply keeps_bind; [apply keeps_get|intros st].
  destruct (callback_function st), (user_data st); auto with counts_frame.
Qed.

Lemma keeps_counts_bus_connect s h : keeps counts (bus_connect s h).
Proof. unfold bus_connect. auto with counts_frame. Qed.

Lemma keeps_counts_add_signal_watch : keeps counts add_signal_watch.
Proof. unfold add_signal_watch. auto with counts_frame. Qed.

#[local] Hint Resolve keeps_counts_getattr keeps_counts_setattr keeps_counts_get_hef_path
  keeps_counts_get_caps keeps_counts_set_property keeps_counts_pipeline_add
  keeps_counts_make keeps_counts_link keeps_counts_get_static_pad
  keeps_counts_add_probe keeps_counts_bus_connect keeps_counts_add_signal_watch
  : counts_frame.

Lemma keeps_counts_verify_elements : keeps counts verify_elements.
Proof. unfold verify_elements. auto 10 with counts_frame. Qed.

Lemma keeps_counts_add_and_link fw : keeps counts (add_and_link_elements fw).
Proof. unfold add_and_link_elements, self_link. auto 40 with counts_frame. Qed.

#[local] Hint Resolve keeps_counts_verify_elements keeps_counts_add_and_link
  : counts_frame.

Lemma keeps_counts_create_elements fw : keeps counts (create_elements fw).
Proof.
  unfold create_elements, self_make, self_set_property.
  auto 80 with counts_frame.
Qed.

(** X7. Once the two checks of [__init__] have passed, Gst.init has been
    called once and one pipeline has been created, whether [__init__] then
    returns or raises: a failure past the checks leaves both behind. *)
Theorem init_past_checks_counts fw cb ud model_name is_hailo8l st rel :
  py_getitem model_name (models_for is_hailo8l) = Some rel ->
  path_exists fw (PosixPath.join (resources_dir fw) rel) = true ->
  let r := __init__ fw cb ud model_name is_hailo8l st in
  gst_inits r.2 = S (gst_inits st) /\ pipelines r.2 = S (pipelines st).
Proof.
  intros Hrel Hex r. subst r.
  rewrite (init_passes _ _ _ _ _ _ _ Hrel Hex).
  match goal with
  | |- context [?m ?s] =>
      lazymatch type of m with
      | M unit => assert (Hk : keeps counts m)
      end
  end.
  { pose proof (keeps_counts_create_elements fw).
    auto 20 with counts_frame. }
  match goal with
  | Hk : keeps counts ?m |- context [?m ?s] => specialize (Hk s)
  end.
  unfold counts in Hk. injection Hk as H1 H2. split; assumption.
Qed.

(** ** [verify_elements] *)

Lemma map_m_getattr names hs st :
  Forall2 (fun a h => attrs st !! a = Some h) names hs ->
  map_m getattr names st = (Ret hs, st).
Proof.
  induction 1 as [|a h names hs Ha _ IH]; cbn [map_m]; [reflexivity|].
  unfold bind at 1. unfold getattr at 1, bind at 1, get at 1. rewrite Ha.
  cbn [ret]. unfold bind at 1. rewrite IH. reflexivity.
Qed.

Lemma with_children_app_nil st : with_children (children st ++ []) st = st.
Proof. rewrite app_nil_r. destruct st; reflexivity. Qed.

Lemma verify_loop hs st :
  for_each hs
    (fun element =>
       match element with
       | None => raise (Exn RuntimeError ("Could not create " +:+ str_None))
       | Some n => pipeline_add n
       end) st =
  (if forallb truthy hs then Ret tt
   else Raise (Exn RuntimeError "Could not create None"),
   with_children (children st ++ made_prefix hs) st).
Proof.
  revert st. induction hs as [|[n|] hs IH]; intros st; cbn [for_each forallb made_prefix truthy].
  - rewrite with_children_app_nil. reflexivity.
  - unfold bind, pipeline_add, modify. rewrite IH. cbn [andb children with_children].
    rewrite <- app_assoc. reflexivity.
  - unfold bind, raise. cbn [andb]. rewrite with_children_app_nil. reflexivity.
Qed.

(** X3. [verify_elements] goes through its ten attributes in order and
    adds each element to the pipeline until it meets one that is None:
    there it raises RuntimeError "Could not create None", and the elements
    added before stay in the pipeline.  With no None among them it returns
    with all ten added. *)
Theorem verify_elements_adds_until_missing st hs :
  Forall2 (fun a h => attrs st !! a = Some h) verify_attrs hs ->
  verify_elements st =
  (if forallb truthy hs then Ret tt
   else Raise (Exn RuntimeError "Could not create None"),
   with_children (children st ++ made_prefix hs) st).
Proof.
  intros Hattrs. unfold verify_elements. unfold bind at 1.
  change [ "src"; "jpegdec"; "videoconvert"; "videoscale";
           "capsfilter"; "queue1"; "queue2";
           "hailonet"; "hailofilter"; "sink" ] with verify_attrs.
  rewrite (map_m_getattr _ _ _ Hattrs). apply verify_loop.
Qed.

(** ** The bus handlers on their own *)

Lemma on_error_eq fw m d st :
  on_error fw (ErrorMessage m d) st =
  (match loop st with
   | Some _ => Ret tt
   | None => Raise (no_attribute "GStreamerIPCameraApp" "loop")
   end,
   with_loop (match loop st with Some _ => Some false | None => None end)
     (with_pstate NULL
        (with_stdout
           (stdout st ++ [ "Pipeline error: " +:+ m; "Debug info: " +:+ d; cleanup_line ])
           st))).
Proof.
  destruct st as [? ? ? ? ? ? ? ? ? ? ? ? ? ? ? lp].
  destruct lp as [[|]|]; cbv -[app]; rewrite <- ?app_assoc; reflexivity.
Qed.

Lemma on_eos_eq fw msg st :
  on_eos fw msg st =
  (match loop st with
   | Some _ => Ret tt
   | None => Raise (no_attribute "GStreamerIPCameraApp" "loop")
   end,
   with_loop (match loop st with Some _ => Some false | None => None end)
     (with_pstate NULL
        (with_stdout (stdout st ++ [ "End of stream reached"; cleanup_line ]) st))).
Proof.
  destruct st as [? ? ? ? ? ? ? ? ? ? ? ? ? ? ? lp].
  destruct lp as [[|]|]; cbv -[app]; rewrite <- ?app_assoc; reflexivity.
Qed.

(** X2. [on_error] and [on_eos] clean up first and quit the loop
    afterwards.  Called in any state they print, call [cleanup] once and
    leave the pipeline in state NULL; when [run] has created the loop they
    return with the loop stopped, and when the instance has no loop
    attribute yet they end in AttributeError, raised by [self.loop.quit()]
    after the cleanup is done. *)
Theorem handlers_need_the_loop fw st m d msg :
  let r1 := on_error fw (ErrorMessage m d) st in
  let r2 := on_eos fw msg st in
  (pstate r1.2 = NULL /\ pstate r2.2 = NULL) /\
  (cleanup_calls r1.2 = cleanup_calls st + 1 /\
   cleanup_calls r2.2 = cleanup_calls st + 1) /\
  (loop st = None ->
   r1.1 = Raise (no_attribute "GStreamerIPCameraApp" "loop") /\
   r2.1 = Raise (no_attribute "GStreamerIPCameraApp" "loop")) /\
  (loop st <> None ->
   (r1.1 = Ret tt /\ loop r1.2 = Some false) /\
   (r2.1 = Ret tt /\ loop r2.2 = Some false)).
Proof.
  intros r1 r2. subst r1 r2. rewrite on_error_eq, on_eos_eq.
  cbn [fst snd pstate loop with_loop with_pstate].
  split; [split; reflexivity|]. split; [|split].
  - unfold cleanup_calls. cbn [stdout with_loop with_pstate with_stdout].
    rewrite !List.filter_app, !length_app. split; reflexivity.
  - intros ->. split; reflexivity.
  - intros Hlp. destruct (loop st); [|contradiction Hlp; reflexivity].
    repeat split.
Qed.

(** ** Where the model file is looked for *)

Lemma rstrip_sep_empty s :
  PosixPath.is_empty (PosixPath.rstrip_sep s) = PosixPath.all_sep s.
Proof.
  induction s as [|c s IH]; [reflexivity|].
  cbn [PosixPath.rstrip_sep PosixPath.all_sep]. rewrite IH.
  destruct (PosixPath.is_sep c), (PosixPath.all_sep s); reflexivity.
Qed.

Lemma dirname_absolute p :
  PosixPath.starts_with_sep p = true ->
  PosixPath.starts_with_sep (PosixPath.dirname p) = true.
Proof.
  destruct p as [|c r]; [discriminate|]. cbn [PosixPath.starts_with_sep]. intros Hc.
  unfold PosixPath.dirname. cbn [PosixPath.head_part]. rewrite Hc.
  cbn [orb PosixPath.is_empty negb andb PosixPath.all_sep]. rewrite Hc. cbn [andb].
  destruct (PosixPath.all_sep (PosixPath.head_part r)) eqn:Hall; cbn [negb].
  - exact Hc.
  - cbn [PosixPath.rstrip_sep]. rewrite Hc, rstrip_sep_empty, Hall. exact Hc.
Qed.

Lemma append_starts_with_sep s t :
  PosixPath.starts_with_sep s = true -> PosixPath.starts_with_sep (s +:+ t) = true.
Proof. destruct s; [discriminate | intros H; exact H]. Qed.

Lemma resources_dir_absolute fw :
  PosixPath.starts_with_sep (file_abspath fw) = true ->
  PosixPath.starts_with_sep (resources_dir fw) = true.
Proof.
  intros Habs. unfold resources_dir. cbv zeta.
  pose proof (dirname_absolute _ (dirname_absolute _ Habs)) as Hd.
  set (d := PosixPath.dirname (PosixPath.dirname (file_abspath fw))) in *.
  unfold PosixPath.join. change (PosixPath.starts_with_sep "resources") with false.
  cbv iota.
  destruct (PosixPath.is_empty d || PosixPath.ends_with_sep d);
    apply append_starts_with_sep; exact Hd.
Qed.

Lemma registry_paths_relative name lite rel :
  py_getitem name (models_for lite) = Some rel ->
  PosixPath.starts_with_sep rel = false.
Proof.
  destruct lite; cbn [models_for HAILO8L_MODELS HAILO8_MODELS py_getitem];
    repeat (destruct (String.eqb name _); [intros [= <-]; reflexivity|]);
    discriminate.
Qed.

(** X10. For every model of either registry the model file is looked for
    under [resources_dir]: the path is [resources_dir], a separator and
    the registry's relative path, no registry path being absolute.  It is
    the path the instance keeps and the one tested for existence, and it
    is absolute when the path of the script is. *)
Theorem hef_path_under_resources_dir fw cb ud model_name is_hailo8l n out st :
  __init__ fw cb ud model_name is_hailo8l (initial n out) = (Ret tt, st) ->
  exists rel,
    py_getitem model_name (models_for is_hailo8l) = Some rel /\
    hef_path st = Some (resources_dir fw +:+ "/" +:+ rel) /\
    path_exists fw (resources_dir fw +:+ "/" +:+ rel) = true /\
    (PosixPath.starts_with_sep (file_abspath fw) = true ->
     PosixPath.starts_with_sep (resources_dir fw +:+ "/" +:+ rel) = true).
Proof.
  intros Hinit.
  destruct (init_success_inv _ _ _ _ _ _ _ _ Hinit) as [rel [l [Hrel [Hex [_ ->]]]]].
  rewrite (join_resources_dir fw rel (registry_paths_relative _ _ _ Hrel)) in *.
  exists rel. split; [exact Hrel|]. split; [reflexivity|]. split; [exact Hex|].
  intros Habs. apply append_starts_with_sep, resources_dir_absolute, Habs.
Qed.

(** ** What a successful [__init__] registers and configures *)

(** X8. After [__init__] has returned there is one buffer probe, on the
    src pad of hailofilter, with the callback and the user data given to
    the constructor; the bus is watched and has [on_error] connected to
    message::error and [on_eos] to message::eos, in that order; Gst.init
    has been called once, one pipeline exists and nothing was printed. *)
Theorem init_registers_probe_and_handlers fw cb ud model_name is_hailo8l n out st :
  __init__ fw cb ud model_name is_hailo8l (initial n out) = (Ret tt, st) ->
  probes st = [ ("hailofilter", "src", cb, ud) ] /\
  bus_watch st = true /\
  bus_handlers st = [ ("message::error", OnError); ("message::eos", OnEos) ] /\
  callback_function st = Some cb /\
  user_data st = Some ud /\
  gst_inits st = S n /\
  pipelines st = 1 /\
  stdout st = out.
Proof.
  intros Hinit.
  destruct (init_success_inv _ _ _ _ _ _ _ _ Hinit) as [rel [l [_ [_ [_ ->]]]]].
  repeat split.
Qed.

(** X9. After [__init__] has returned the source has the camera URL as
    location, timeout 5 and retries 3; the caps filter has the caps
    video/x-raw,format=RGB,width=640,height=480; the sink has sync False;
    the decoder, the converter, the scaler and hailofilter have no
    property set, and hailonet has its two. *)
Theorem init_configures_stages fw cb ud model_name is_hailo8l n out st :
  __init__ fw cb ud model_name is_hailo8l (initial n out) = (Ret tt, st) ->
  el_props <$> heap st !! "source" =
    Some (list_to_map [ ("location", PStr camera_location);
                        ("timeout", PInt 5); ("retries", PInt 3) ]) /\
  el_props <$> heap st !! "capsfilter" =
    Some (list_to_map [ ("caps", PCaps "video/x-raw,format=RGB,width=640,height=480") ]) /\
  el_props <$> heap st !! "sink" = Some (list_to_map [ ("sync", PBool false) ]) /\
  Forall (fun name => el_props <$> heap st !! name = Some ∅)
    [ "jpeg-decoder"; "converter"; "scaler"; "hailofilter" ] /\
  size <$> (el_props <$> heap st !! "hailonet") = Some 2.
Proof.
  intros Hinit.
  destruct (init_success_inv _ _ _ _ _ _ _ _ Hinit) as [rel [l [_ [_ [_ ->]]]]].
  generalize (PosixPath.join (resources_dir fw) rel). intros p.
  split; [vm_compute; reflexivity|]. split; [vm_compute; reflexivity|].
  split; [vm_compute; reflexivity|]. split; [|vm_compute; reflexivity].
  repeat (apply Forall_cons_2; [vm_compute; reflexivity|]). apply Forall_nil_2.
Qed.

(** ** [run], further *)

(** X1. When the framework refuses the change to PLAYING, [run] raises
    RuntimeError "Unable to set the pipeline to the playing state" and
    leaves the instance as it was: no loop has been created and [cleanup]
    has not been called, so the pipeline is not put back to NULL. *)
Theorem run_refused_start fw evs st :
  playing_result fw = FAILURE ->
  run fw evs st =
  (Raise (Exn RuntimeError "Unable to set the pipeline to the playing state"), st).
Proof. intros H. rewrite run_unfold, H. reflexivity. Qed.

(** X11. When the main loop raises, [run] raises the same exception,
    not another one in its place.  It prints "Pipeline error: " and the
    text first when the exception is an Exception, and nothing when it is
    not (KeyboardInterrupt); in both cases [cleanup] runs, and the pipeline
    ends in state NULL with the loop stopped. *)
Theorem run_reraises_loop_exception fw cb ud model_name is_hailo8l n out st evs e :
  __init__ fw cb ud model_name is_hailo8l (initial n out) = (Ret tt, st) ->
  playing_result fw <> FAILURE ->
  first_exit evs = Some (EvRaise e) ->
  (run fw evs st).1 = Raise e /\
  stdout (run fw evs st).2 =
    (out ++ (if is_Exception (exn_cls e)
             then [ "Pipeline error: " +:+ exn_msg e; "Cleaning up pipeline..." ]
             else [ "Cleaning up pipeline..." ]))%list /\
  pstate (run fw evs st).2 = NULL /\
  loop (run fw evs st).2 = Some false.
Proof.
  intros Hinit Hp Hfe.
  rewrite (run_exit fw evs _ st (init_wired _ _ _ _ _ _ _ _ Hinit) Hp Hfe).
  destruct (init_success_inv _ _ _ _ _ _ _ _ Hinit) as [rel [l [_ [_ [_ ->]]]]].
  repeat split.
Qed.

(** X12. However the loop ends, [run] changes nothing of what
    [__init__] has built: elements and their properties, the stages in the
    pipeline, the links, the probe, the bus handlers and the counts of
    initialisations and pipelines are as before, as are the attributes of
    the instance but the loop, which exists and is stopped. *)
Theorem run_leaves_pipeline_contents fw cb ud model_name is_hailo8l n out st evs ev :
  __init__ fw cb ud model_name is_hailo8l (initial n out) = (Ret tt, st) ->
  playing_result fw <> FAILURE ->
  first_exit evs = Some ev ->
  framework_side (run fw evs st).2 = framework_side st /\
  attrs (run fw evs st).2 = attrs st /\
  hef_path (run fw evs st).2 = hef_path st /\
  loop (run fw evs st).2 = Some false.
Proof.
  intros Hinit Hp Hfe.
  rewrite (run_exit fw evs _ st (init_wired _ _ _ _ _ _ _ _ Hinit) Hp Hfe).
  repeat split.
Qed.

(** ** Examples *)

Lemma all_stages_made_always fp pe lr pr :
  all_stages_made (Framework fp pe (fun _ _ => true) lr pr).
Proof.
  unfold all_stages_made, stage_chain.
  repeat (apply Forall_cons_2; [reflexivity|]). apply Forall_nil_2.
Qed.

Lemma fw_refusing_never_raises a b l :
  Forall (fun ep => ~ link_raises (fw_refusing a b) ep) l.
Proof.
  apply Forall_forall. intros ep _ [e He]. cbn [fw_refusing link_result] in He.
  destruct (String.eqb ep.1 a && String.eqb ep.2 b); discriminate He.
Qed.

Lemma fw_ok_never_raises l : Forall (fun ep => ~ link_raises fw_ok ep) l.
Proof. apply Forall_forall. intros ep _ [e He]. discriminate He. Qed.

Lemma app_ok_constructed :
  __init__ fw_ok 1 2 "yolov5m" false (initial 0 []) = (Ret tt, app_ok).
Proof. vm_compute. reflexivity. Qed.

Lemma run_refused_start_witness :
  playing_result fw_not_playing = FAILURE /\
  run fw_not_playing [EvBuffer; EvQuit] app_ok =
  (Raise (Exn RuntimeError "Unable to set the pipeline to the playing state"), app_ok).
Proof.
  split; [reflexivity|].
  exact (run_refused_start fw_not_playing [EvBuffer; EvQuit] app_ok eq_refl).
Defined.

Lemma verify_elements_adds_until_missing_witness :
  Forall2 (fun a h => attrs app_unscaled !! a = Some h) verify_attrs
    [ Some "source"; Some "jpeg-decoder"; Some "converter"; None;
      Some "capsfilter"; Some "queue1"; Some "queue2";
      Some "hailonet"; Some "hailofilter"; Some "sink" ] /\
  verify_elements app_unscaled =
  (Raise (Exn RuntimeError "Could not create None"),
   with_children [ "source"; "jpeg-decoder"; "converter" ] app_unscaled).
Proof.
  assert (H : Forall2 (fun a h => attrs app_unscaled !! a = Some h) verify_attrs
                [ Some "source"; Some "jpeg-decoder"; Some "converter"; None;
                  Some "capsfilter"; Some "queue1"; Some "queue2";
                  Some "hailonet"; Some "hailofilter"; Some "sink" ]).
  { unfold verify_attrs.
    repeat (apply Forall2_cons_2; [vm_compute; reflexivity|]). apply Forall2_nil_2. }
  split; [exact H|].
  exact (verify_elements_adds_until_missing app_unscaled _ H).
Defined.

Lemma init_ignores_refused_links_witness :
  py_getitem "yolov5m" (models_for false) = Some "resources/yolov5m_wo_spp.hef" /\
  all_stages_made (fw_refusing "queue1" "hailonet") /\
  no_link_raises (fw_refusing "queue1" "hailonet") /\
  exists st,
    __init__ (fw_refusing "queue1" "hailonet") 1 2 "yolov5m" false (initial 0 []) =
      (Ret tt, st) /\
    links st = accepted_links (fw_refusing "queue1" "hailonet") /\
    accepted_links (fw_refusing "queue1" "hailonet") =
      [ ("source", "jpeg-decoder"); ("jpeg-decoder", "converter");
        ("converter", "scaler"); ("scaler", "capsfilter");
        ("capsfilter", "queue1"); ("hailonet", "hailofilter");
        ("hailofilter", "queue2"); ("queue2", "sink") ].
Proof.
  pose proof (all_stages_made_always script_path (fun _ => true)
                (link_result (fw_refusing "queue1" "hailonet")) SUCCESS) as Hs.
  pose proof (fw_refusing_never_raises "queue1" "hailonet" (neighbours chain_names)) as Hn.
  split; [reflexivity|]. split; [exact Hs|]. split; [exact Hn|].
  destruct (init_ignores_refused_links (fw_refusing "queue1" "hailonet") 1 2
              "yolov5m" false 0 [] "resources/yolov5m_wo_spp.hef" eq_refl eq_refl Hs Hn)
    as [st [Hinit [_ [Hlinks _]]]].
  exists st. split; [exact Hinit|]. split; [exact Hlinks|]. reflexivity.
Defined.

Lemma init_wraps_link_error_witness :
  neighbours chain_names =
    ([ ("source", "jpeg-decoder"); ("jpeg-decoder", "converter") ]
       ++ ("converter", "scaler")
       :: [ ("scaler", "capsfilter"); ("capsfilter", "queue1"); ("queue1", "hailonet");
            ("hailonet", "hailofilter"); ("hailofilter", "queue2"); ("queue2", "sink") ])%list /\
  link_result (fw_link_raising "converter" "scaler" (Exn GLibError "no common format"))
    "converter" "scaler" = LinkRaises (Exn GLibError "no common format") /\
  (__init__ (fw_link_raising "converter" "scaler" (Exn GLibError "no common format"))
     1 2 "yolov5m" false (initial 0 [])).1 =
    Raise (Exn RuntimeError "Failed to link elements: no common format") /\
  links (__init__ (fw_link_raising "converter" "scaler" (Exn GLibError "no common format"))
           1 2 "yolov5m" false (initial 0 [])).2 =
    [ ("source", "jpeg-decoder"); ("jpeg-decoder", "converter") ].
Proof.
  set (fw := fw_link_raising "converter" "scaler" (Exn GLibError "no common format")).
  assert (Hpre : Forall (fun ep => ~ link_raises fw ep)
                   [ ("source", "jpeg-decoder"); ("jpeg-decoder", "converter") ]).
  { repeat (apply Forall_cons_2; [intros [e He]; discriminate He|]). apply Forall_nil_2. }
  pose proof (init_wraps_link_error fw 1 2 "yolov5m" false 0 []
                "resources/yolov5m_wo_spp.hef"
                [ ("source", "jpeg-decoder"); ("jpeg-decoder", "converter") ]
                ("converter", "scaler")
                [ ("scaler", "capsfilter"); ("capsfilter", "queue1"); ("queue1", "hailonet");
                  ("hailonet", "hailofilter"); ("hailofilter", "queue2"); ("queue2", "sink") ]
                (Exn GLibError "no common format")
                eq_refl eq_refl
                (all_stages_made_always script_path (fun _ => true) (link_result fw) SUCCESS)
                eq_refl Hpre eq_refl) as H.
  cbv zeta in H. destruct H as [Hraise [Hlinks _]].
  split; [reflexivity|]. split; [reflexivity|].
  split; [exact Hraise | exact Hlinks].
Defined.

Lemma init_past_checks_counts_witness :
  py_getitem "yolov5m" (models_for false) = Some "resources/yolov5m_wo_spp.hef" /\
  (__init__ (fw_without "hailonet") 1 2 "yolov5m" false (initial 4 [])).1 =
    Raise (Exn RuntimeError
      "Could not create hailonet element. Make sure Hailo GStreamer plugins are installed.") /\
  gst_inits (__init__ (fw_without "hailonet") 1 2 "yolov5m" false (initial 4 [])).2 = 5 /\
  pipelines (__init__ (fw_without "hailonet") 1 2 "yolov5m" false (initial 4 [])).2 = 1.
Proof.
  pose proof (init_past_checks_counts (fw_without "hailonet") 1 2 "yolov5m" false
                (initial 4 []) "resources/yolov5m_wo_spp.hef" eq_refl eq_refl) as H.
  cbv zeta in H. destruct H as [Hinits Hpipes].
  split; [reflexivity|]. split; [vm_compute; reflexivity|].
  split; [exact Hinits | exact Hpipes].
Defined.

Lemma hef_path_under_resources_dir_witness :
  __init__ fw_ok 1 2 "yolov5m" false (initial 0 []) = (Ret tt, app_ok) /\
  exists rel,
    py_getitem "yolov5m" (models_for false) = Some rel /\
    hef_path app_ok = Some (resources_dir fw_ok +:+ "/" +:+ rel).
Proof.
  split; [exact app_ok_constructed|].
  destruct (hef_path_under_resources_dir fw_ok 1 2 "yolov5m" false 0 [] app_ok
              app_ok_constructed) as [rel [Hrel [Hpath _]]].
  exists rel. split; [exact Hrel | exact Hpath].
Defined.

Lemma init_registers_probe_and_handlers_witness :
  __init__ fw_ok 1 2 "yolov5m" false (initial 0 []) = (Ret tt, app_ok) /\
  probes app_ok = [ ("hailofilter", "src", 1, 2) ] /\
  bus_watch app_ok = true.
Proof.
  split; [exact app_ok_constructed|].
  destruct (init_registers_probe_and_handlers fw_ok 1 2 "yolov5m" false 0 [] app_ok
              app_ok_constructed) as [Hprobe [Hwatch _]].
  split; [exact Hprobe | exact Hwatch].
Defined.

Lemma init_configures_stages_witness :
  __init__ fw_ok 1 2 "yolov5m" false (initial 0 []) = (Ret tt, app_ok) /\
  el_props <$> heap app_ok !! "sink" = Some (list_to_map [ ("sync", PBool false) ]).
Proof.
  split; [exact app_ok_constructed|].
  destruct (init_configures_stages fw_ok 1 2 "yolov5m" false 0 [] app_ok
              app_ok_constructed) as [_ [_ [Hsink _]]].
  exact Hsink.
Defined.

Lemma run_reraises_loop_exception_witness :
  __init__ fw_ok 1 2 "yolov5m" false (initial 0 []) = (Ret tt, app_ok) /\
  playing_result fw_ok <> FAILURE /\
  first_exit [EvBuffer; EvRaise (Exn KeyboardInterrupt "")] =
    Some (EvRaise (Exn KeyboardInterrupt "")) /\
  (run fw_ok [EvBuffer; EvRaise (Exn KeyboardInterrupt "")] app_ok).1 =
    Raise (Exn KeyboardInterrupt "") /\
  stdout (run fw_ok [EvBuffer; EvRaise (Exn KeyboardInterrupt "")] app_ok).2 =
    [ "Cleaning up pipeline..." ].
Proof.
  assert (Hp : playing_result fw_ok <> FAILURE) by discriminate.
  split; [exact app_ok_constructed|]. split; [exact Hp|]. split; [reflexivity|].
  destruct (run_reraises_loop_exception fw_ok 1 2 "yolov5m" false 0 [] app_ok
              [EvBuffer; EvRaise (Exn KeyboardInterrupt "")] (Exn KeyboardInterrupt "")
              app_ok_constructed Hp eq_refl) as [Hout [Hstd _]].
  split; [exact Hout | exact Hstd].
Defined.

Lemma run_leaves_pipeline_contents_witness :
  __init__ fw_ok 1 2 "yolov5m" false (initial 0 []) = (Ret tt, app_ok) /\
  playing_result fw_ok <> FAILURE /\
  first_exit [EvBus EosMessage] = Some (EvBus EosMessage) /\
  framework_side (run fw_ok [EvBus EosMessage] app_ok).2 = framework_side app_ok.
Proof.
  assert (Hp : playing_result fw_ok <> FAILURE) by discriminate.
  split; [exact app_ok_constructed|]. split; [exact Hp|]. split; [reflexivity|].
  destruct (run_leaves_pipeline_contents fw_ok 1 2 "yolov5m" false 0 [] app_ok
              [EvBus EosMessage] (EvBus EosMessage) app_ok_constructed Hp eq_refl)
    as [Hside _].
  exact Hside.
Defined.
